(** * Degree-audit core: claim arbitration, assertions and requirement status

    A shallow embedding of the parts of the auditor that decide how a
    course may be claimed ([degreepath/context.py]), how an assertion is
    given a status and a rank ([dp/assertion_clause.py]) and how a
    requirement reports its status ([dp/base/requirement.py]).

    Python values are embedded as follows:
    - [Decimal] is a rational [Q]; comparisons use [Qeq_bool]/[Qle_bool],
      which agree with [Decimal]'s numeric comparison;
    - a [Dict[str, ...]] is a [gmap string ...]; the [defaultdict] read that
      creates a missing key is written out in [defaultdict_getitem];
    - a [Set[Claim]] is a duplicate-free [list Claim] maintained by
      [set_add]; every use in the code is through [any]/[all]/[add], none of
      which depends on iteration order;
    - a raised exception is the [Raise] branch of [outcome]; code that
      mutates [self] returns the new context next to its value. *)

From Stdlib Require Import QArith Qminmax Sorted Permutation.
From stdpp Require Import gmap strings list fin_maps.

Close Scope Q_scope.
Set Warnings "-register-all".
Local Open Scope string_scope.

(** ** Python exceptions and the error monad *)

Module Py.

Inductive exn : Type :=
| TypeError
| AssertionError
| AttributeError
| RecursionError
| Exception_ (msg : string).

Inductive outcome (A : Type) : Type :=
| Ok (a : A)
| Raise (e : exn).

Arguments Ok {A} a.
Arguments Raise {A} e.

Definition bind {A B : Type} (m : outcome A) (k : A -> outcome B) : outcome B :=
  match m with
  | Ok a => k a
  | Raise e => Raise e
  end.

Definition is_empty {A : Type} (l : list A) : bool :=
  match l with
  | [] => true
  | _ :: _ => false
  end.

Fixpoint mapM {A B : Type} (f : A -> outcome B) (l : list A) : outcome (list B) :=
  match l with
  | [] => Ok []
  | x :: xs =>
      bind (f x) (fun y => bind (mapM f xs) (fun ys => Ok (y :: ys)))
  end.

(** [d[k]] on a [defaultdict(list-like)]: a missing key is created with the
    empty default before it is returned. *)
Definition defaultdict_getitem {V : Type} (d : gmap string (list V)) (k : string)
  : list V * gmap string (list V) :=
  match d !! k with
  | Some v => (v, d)
  | None => ([], <[k := []]> d)
  end.

End Py.

Export Py.

#[global] Instance outcome_ret : MRet outcome := fun _ a => Ok a.
#[global] Instance outcome_bind : MBind outcome := fun _ _ k m => bind m k.

(** ** Value model shared by both packages *)

Inductive Operator : Type :=
| EqualTo
| NotEqualTo
| LessThan
| LessThanOrEqualTo
| GreaterThan
| GreaterThanOrEqualTo
| In_
| NotIn.

Definition Operator_eqb (a b : Operator) : bool :=
  match a, b with
  | EqualTo, EqualTo
  | NotEqualTo, NotEqualTo
  | LessThan, LessThan
  | LessThanOrEqualTo, LessThanOrEqualTo
  | GreaterThan, GreaterThan
  | GreaterThanOrEqualTo, GreaterThanOrEqualTo
  | In_, In_
  | NotIn, NotIn => true
  | _, _ => false
  end.

Inductive GradeOption : Type := Graded | PassNoPass | Audit | NoGrade.

Inductive CourseType : Type := Regular | AP | IB | CAL | OtherCourseType.

(** Modelled from the spec: the [CourseInstance] record ([data/course.py] is
    not part of the sources at hand); the fields are those of the data
    model, section 3. *)
Record CourseInstance : Type := {
  clbid : string;
  crsid : string;
  course : string;
  subject : list string;
  grade_points : Q;
  grade_option : GradeOption;
  credits : Q;
  course_type : CourseType;
  is_in_progress : bool;
  is_in_progress_this_term : bool;
  is_in_progress_in_future : bool;
  is_incomplete : bool;
  is_in_gpa : bool;
  attributes : list string;
  year : Z;
  term : Z;
  section_ : option string;
}.

(** Modelled from the spec: the [AreaPointer] record (section 3). *)
Record AreaPointer : Type := {
  area_code : string;
  area_catalog : Z;
  area_kind : string;
  area_gpa : option Q;
}.

(** ** [degreepath]: clauses, claims and the requirement context *)

Module Degreepath.

(** Modelled from the spec: the clause types ([degreepath/clause.py] is not
    part of the sources at hand).  A single clause carries the fields named
    in section 3, plus [expected_verbatim], which [make_claim] passes when
    it turns a course rule into a clause. *)
Inductive Scalar : Type :=
| SStr (s : string)
| SDec (q : Q)
| SBool (b : bool).

Inductive Expected : Type :=
| EScalar (x : Scalar)
| ETuple (xs : list Scalar).

Record SingleClause : Type := {
  key : string;
  expected : Expected;
  expected_verbatim : Expected;
  operator : Operator;
  at_most : bool;
  treat_in_progress_as_pass : bool;
}.

Inductive Clause : Type :=
| Single (c : SingleClause)
| AndClause (children : list Clause)
| OrClause (children : list Clause).

(** Python's [==] on these values: numeric on decimals, structural
    elsewhere. *)
Definition Scalar_eqb (a b : Scalar) : bool :=
  match a, b with
  | SStr s, SStr t => String.eqb s t
  | SDec p, SDec q => Qeq_bool p q
  | SBool x, SBool y => Bool.eqb x y
  | _, _ => false
  end.

Fixpoint list_eqb {A : Type} (eqb : A -> A -> bool) (xs ys : list A) : bool :=
  match xs, ys with
  | [], [] => true
  | x :: xs', y :: ys' => eqb x y && list_eqb eqb xs' ys'
  | _, _ => false
  end.

Definition Expected_eqb (a b : Expected) : bool :=
  match a, b with
  | EScalar x, EScalar y => Scalar_eqb x y
  | ETuple xs, ETuple ys => list_eqb Scalar_eqb xs ys
  | _, _ => false
  end.

Definition SingleClause_eqb (a b : SingleClause) : bool :=
  String.eqb (key a) (key b)
  && Expected_eqb (expected a) (expected b)
  && Expected_eqb (expected_verbatim a) (expected_verbatim b)
  && Operator_eqb (operator a) (operator b)
  && Bool.eqb (at_most a) (at_most b)
  && Bool.eqb (treat_in_progress_as_pass a) (treat_in_progress_as_pass b).

Fixpoint Clause_eqb (a b : Clause) : bool :=
  let fix children_eqb (xs ys : list Clause) : bool :=
    match xs, ys with
    | [], [] => true
    | x :: xs', y :: ys' => Clause_eqb x y && children_eqb xs' ys'
    | _, _ => false
    end in
  match a, b with
  | Single c, Single d => SingleClause_eqb c d
  | AndClause xs, AndClause ys => children_eqb xs ys
  | OrClause xs, OrClause ys => children_eqb xs ys
  | _, _ => false
  end.

(** [Claim]: two claims are equal iff all four components match. *)
Record Claim : Type := {
  claim_crsid : string;
  claim_clbid : string;
  claimant_path : list string;
  value : Clause;
}.

Definition Claim_eqb (a b : Claim) : bool :=
  String.eqb (claim_crsid a) (claim_crsid b)
  && String.eqb (claim_clbid a) (claim_clbid b)
  && list_eqb String.eqb (claimant_path a) (claimant_path b)
  && Clause_eqb (value a) (value b).

Record ClaimAttempt : Type := {
  claim : Claim;
  conflict_with : list Claim;
  did_fail : bool;
}.

(** [set.add] on the list model of a [Set[Claim]]. *)
Definition set_add (x : Claim) (s : list Claim) : list Claim :=
  if existsb (Claim_eqb x) s then s else (s ++ [x])%list.

(** [degreepath/base/course.py]: the fields of [BaseCourseRule]. *)
Record BaseCourseRule : Type := {
  rule_course : string;
  hidden : bool;
  grade : option Q;
  rule_allow_claimed : bool;
  rule_path : list string;
}.

Record RuleException : Type := {
  exception_path : list string;
  exception_type : string;
  exception_clbid : option string;
}.

(** [RequirementContext], with the attributes declared in the class. *)
Record RequirementContext : Type := {
  transcript_ : list CourseInstance;
  course_lookup_map_ : gmap string CourseInstance;
  clbid_lookup_map_ : gmap string CourseInstance;
  areas : list AreaPointer;
  multicountable : list (list SingleClause);
  claims : gmap string (list Claim);
  exceptions : gmap (list string) RuleException;
}.

Definition with_claims (self : RequirementContext) (c : gmap string (list Claim))
  : RequirementContext :=
  {| transcript_ := transcript_ self;
     course_lookup_map_ := course_lookup_map_ self;
     clbid_lookup_map_ := clbid_lookup_map_ self;
     areas := areas self;
     multicountable := multicountable self;
     claims := c;
     exceptions := exceptions self |}.

Definition transcript (self : RequirementContext) : list CourseInstance :=
  transcript_ self.

Definition find_course (self : RequirementContext) (c : string) : option CourseInstance :=
  course_lookup_map_ self !! c.

Definition find_course_by_clbid (self : RequirementContext) (id : string)
  : option CourseInstance :=
  clbid_lookup_map_ self !! id.

Definition forced_course_by_clbid (self : RequirementContext) (id : string)
  : outcome CourseInstance :=
  match find_course_by_clbid self id with
  | Some m => Ok m
  | None => Raise (Exception_ "attempted to use CLBID, but it was not found in the transcript")
  end.

Definition has_course (self : RequirementContext) (c : string) : bool :=
  match find_course self c with
  | Some _ => true
  | None => false
  end.

(** [set_claims] installs a copy of the ledger it is given ([set(v)] for
    every entry).  The ledger is a value here: a reference to [self.claims]
    kept from before a call, which the in-place [add] of [make_claim] would
    change, is not part of the embedding, and nothing below speaks of one. *)
Definition set_claims (self : RequirementContext) (c : gmap string (list Claim))
  : RequirementContext :=
  with_claims self c.

Definition reset_claims (self : RequirementContext) : RequirementContext :=
  with_claims self ∅.

(** [completed_courses]: the generator expression evaluates its outermost
    iterable, [self.completed_courses()], when it is created, so every call
    makes the next call before it can return.  [depth] is the number of
    frames the interpreter still allows; running out of them is Python's
    [RecursionError]. *)
Fixpoint completed_courses (depth : nat) (self : RequirementContext)
  : outcome (list CourseInstance) :=
  match depth with
  | O => Raise RecursionError
  | S depth' =>
      inner ← completed_courses depth' self;
      Ok (map (fun c => c) inner)
  end.

(** The same method as a transition system on the call stack: [Calling n]
    is [n] nested activations all waiting for their callee, [Returned]
    would be an activation handing back its generator. *)
Inductive frame_state : Type :=
| Calling (frames : nat)
| Returned (frames : nat) (items : list CourseInstance).

Inductive completed_courses_step : frame_state -> frame_state -> Prop :=
| step_call n :
    completed_courses_step (Calling n) (Calling (S n))
| step_return n items :
    completed_courses_step (Returned (S n) items)
                           (Returned n (map (fun c => c) items)).

(** What a caller may pass as [clause]: the declared type is
    [Union[Clause, BaseCourseRule]]; [None] and tuples are the two shapes
    the function rejects by hand. *)
Inductive ClauseArg : Type :=
| ArgNone
| ArgTuple (items : list Clause)
| ArgClause (c : Clause)
| ArgRule (r : BaseCourseRule).

Section MakeClaim.

(** [SingleClause.is_subset(other)] lives in [degreepath/clause.py], which
    is not part of the sources at hand; [make_claim] is embedded over any
    implementation of it. *)
Variable is_subset : SingleClause -> Clause -> bool.

(** [self.claims[clbid].add(claim)] *)
Definition claims_add (d : gmap string (list Claim)) (k : string) (c : Claim)
  : gmap string (list Claim) :=
  let '(entry, d') := defaultdict_getitem d k in
  <[k := set_add c entry]> d'.

Definition make_claim (self : RequirementContext) (course : CourseInstance)
    (path : list string) (clause : ClauseArg) (allow_claimed : bool)
  : outcome (ClaimAttempt * RequirementContext) :=
  '(rule, clause) ←
    match clause with
    | ArgNone => Raise TypeError
    | ArgTuple _ => Raise TypeError
    (* coerce course rules to clauses *)
    | ArgRule r =>
        Ok (Some r,
            Single {| key := "course";
                      expected := EScalar (SStr (rule_course r));
                      expected_verbatim := EScalar (SStr (rule_course r));
                      operator := EqualTo;
                      at_most := false;
                      treat_in_progress_as_pass := false |})
    | ArgClause c => Ok (None, c)
    end;
  (* build a claim so it can be returned later *)
  let claim :=
    {| claim_crsid := crsid course;
       claim_clbid := clbid course;
       claimant_path := path;
       value := clause |} in
  let succeed (ctx : RequirementContext) (recorded : bool) :=
    Ok ({| claim := claim; conflict_with := []; did_fail := false |},
        if recorded
        then with_claims ctx (claims_add (claims ctx) (clbid course) claim)
        else ctx) in
  let conflict (ctx : RequirementContext) (prior : list Claim) :=
    Ok ({| claim := claim; conflict_with := prior; did_fail := true |}, ctx) in
  if allow_claimed || from_option rule_allow_claimed false rule
  then succeed self false
  else
    let '(prior_claims, claims1) := defaultdict_getitem (claims self) (clbid course) in
    let self := with_claims self claims1 in
    (* If there are no prior claims, the claim is automatically allowed. *)
    if is_empty prior_claims then succeed self true
    else
      (* Find any multicountable sets that may apply to this course *)
      let applicable_clausesets :=
        List.filter (fun clauseset => existsb (fun c => is_subset c clause) clauseset)
                    (multicountable self) in
      if is_empty applicable_clausesets then
        if negb (is_empty prior_claims) then conflict self prior_claims
        else succeed self true
      else
        let prior_clauses := map value prior_claims in
        let clauses_to_cover := (prior_clauses ++ [clause])%list in
        let applicable_clauseset :=
          List.find
            (fun clauseset =>
               forallb (fun p_clause => existsb (fun c => is_subset c p_clause) clauseset)
                       clauses_to_cover)
            applicable_clausesets in
        match applicable_clauseset with
        | None =>
            if negb (is_empty prior_claims) then conflict self prior_claims
            else succeed self true
        | Some applicable_clauseset =>
            (* now limit to just the clauses in the clauseset which have not
               been used *)
            let available_clauses :=
              List.filter
                (fun c => negb (existsb (fun prior_clause => is_subset c prior_clause)
                                        prior_clauses))
                applicable_clauseset in
            if is_empty available_clauses then
              if negb (is_empty prior_claims) then conflict self prior_claims
              else succeed self true
            else succeed self true
        end.

End MakeClaim.

(** Modelled from the spec: [SingleClause.is_subset] ([degreepath/clause.py]
    is not part of the sources at hand), after section 4.1: for two single
    clauses with the same key, EQ-to-x is within IN-of-S iff x is in S,
    IN-of-T is within IN-of-S iff T is included in S, EQ-to-x is within
    EQ-to-y iff x = y, and other combinations return false; a clause is
    within a conjunction iff it is within every conjunct. *)
Fixpoint SingleClause_is_subset (self : SingleClause) (other : Clause) : bool :=
  match other with
  | Single o =>
      String.eqb (key self) (key o)
      && match operator self, operator o with
         | EqualTo, EqualTo => Expected_eqb (expected self) (expected o)
         | EqualTo, In_ =>
             match expected self, expected o with
             | EScalar x, ETuple s => existsb (Scalar_eqb x) s
             | _, _ => false
             end
         | In_, In_ =>
             match expected self, expected o with
             | ETuple t, ETuple s =>
                 forallb (fun x => existsb (Scalar_eqb x) s) t
             | _, _ => false
             end
         | _, _ => false
         end
  | AndClause children => forallb (SingleClause_is_subset self) children
  | OrClause _ => false
  end.

(** The clause [{key: x}] as the loader builds it for a bare string. *)
Definition eq_clause (k x : string) : SingleClause :=
  {| key := k;
     expected := EScalar (SStr x);
     expected_verbatim := EScalar (SStr x);
     operator := EqualTo;
     at_most := false;
     treat_in_progress_as_pass := false |}.

Definition empty_context : RequirementContext :=
  {| transcript_ := [];
     course_lookup_map_ := ∅;
     clbid_lookup_map_ := ∅;
     areas := [];
     multicountable := [];
     claims := ∅;
     exceptions := ∅ |}.

(** Scenario D of the spec: the policy in which [elective] may be shared
    with [post1800] or with [war], and the one course carrying all three
    attributes. *)
Definition scenario_D_multicountable : list (list SingleClause) :=
  [ [eq_clause "attributes" "elective"; eq_clause "attributes" "post1800"];
    [eq_clause "attributes" "elective"; eq_clause "attributes" "war"] ].

Definition scenario_D_context : RequirementContext :=
  {| transcript_ := [];
     course_lookup_map_ := ∅;
     clbid_lookup_map_ := ∅;
     areas := [];
     multicountable := scenario_D_multicountable;
     claims := ∅;
     exceptions := ∅ |}.

Definition scenario_D_course : CourseInstance :=
  {| clbid := "c1";
     crsid := "crs1";
     course := "HIST 210";
     subject := ["HIST"];
     grade_points := 4;
     grade_option := Graded;
     credits := 1;
     course_type := Regular;
     is_in_progress := false;
     is_in_progress_this_term := false;
     is_in_progress_in_future := false;
     is_incomplete := false;
     is_in_gpa := true;
     attributes := ["elective"; "post1800"; "war"];
     year := 2019;
     term := 1;
     section_ := None |}.

(** The claim [make_claim] builds for a course, a claimant and a clause. *)
Definition claim_of (course : CourseInstance) (path : list string) (c : Clause) : Claim :=
  {| claim_crsid := crsid course;
     claim_clbid := clbid course;
     claimant_path := path;
     value := c |}.

(** The clause a course rule is coerced to. *)
Definition clause_of_rule (r : BaseCourseRule) : Clause :=
  Single {| key := "course";
            expected := EScalar (SStr (rule_course r));
            expected_verbatim := EScalar (SStr (rule_course r));
            operator := EqualTo;
            at_most := false;
            treat_in_progress_as_pass := false |}.

Definition success (c : Claim) : ClaimAttempt :=
  {| claim := c; conflict_with := []; did_fail := false |}.

Definition conflict (c : Claim) (prior : list Claim) : ClaimAttempt :=
  {| claim := c; conflict_with := prior; did_fail := true |}.

(** The admitted claims of a [clbid], as [self.claims[clbid]] reads them. *)
Definition prior_claims (self : RequirementContext) (id : string) : list Claim :=
  default [] (claims self !! id).

(** The two clauses claimed in scenario D, the first claim, and the
    context once it has been recorded. *)
Definition post1800 : Clause := Single (eq_clause "attributes" "post1800").
Definition war : Clause := Single (eq_clause "attributes" "war").

Definition scenario_D_first (path_a : list string) : Claim :=
  claim_of scenario_D_course path_a post1800.

Definition scenario_D_after_first (path_a : list string) : RequirementContext :=
  with_claims scenario_D_context {[ "c1" := [scenario_D_first path_a] ]}.

(** *** The rest of [RequirementContext] *)

(** Whether a call is let through without being recorded: the keyword, or
    the flag of the course rule that was passed as [clause]. *)
Definition rule_of (arg : ClauseArg) : option BaseCourseRule :=
  match arg with
  | ArgRule r => Some r
  | _ => None
  end.

Definition lets_through (arg : ClauseArg) (allow_claimed : bool) : bool :=
  allow_claimed || from_option rule_allow_claimed false (rule_of arg).

(** A dict built from key/value pairs in order, as a dict comprehension
    does: a later pair replaces an earlier one with the same key. *)
Definition dict_of {V : Type} (items : list (string * V)) : gmap string V :=
  fold_left (fun d kv => <[kv.1 := kv.2]> d) items ∅.

Section Transcript.

(** [CourseInstance.course()] and [CourseInstance.course_shorthand()] are
    methods of [degreepath/data/course.py], which is not part of the sources
    at hand; the lookups are embedded over any two such methods. *)
Variable course_name : CourseInstance -> string.
Variable course_shorthand : CourseInstance -> string.

Definition with_transcript (self : RequirementContext)
    (transcript : list CourseInstance) : RequirementContext :=
  let course_lookup_map :=
    (* the second dict of the merge wins: stdpp's union is left-biased *)
    dict_of (map (fun c => (course_name c, c)) transcript)
    ∪ dict_of (map (fun c => (course_shorthand c, c)) transcript) in
  let clbid_lookup_map := dict_of (map (fun c => (clbid c, c)) transcript) in
  {| transcript_ := transcript;
     course_lookup_map_ := course_lookup_map;
     clbid_lookup_map_ := clbid_lookup_map;
     areas := areas self;
     multicountable := multicountable self;
     claims := claims self;
     exceptions := exceptions self |}.

Definition find_all_courses (self : RequirementContext) (c : string)
  : list CourseInstance :=
  List.filter
    (fun crs => String.eqb (course_shorthand crs) c || String.eqb (course_name crs) c)
    (transcript self).

End Transcript.

(** [code in c.subject], for an optional [code]: [None] is in no subject
    list. *)
Definition in_subject (code : option string) (c : CourseInstance) : bool :=
  match code with
  | Some s => existsb (String.eqb s) (subject c)
  | None => false
  end.

Definition find_other_courses (self : RequirementContext)
    (ap ib cal : option string) : list CourseInstance :=
  List.filter
    (fun c =>
       match course_type c with
       | AP => in_subject ap c
       | IB => in_subject ib c
       | CAL => in_subject cal c
       | _ => false
       end)
    (transcript self).

Definition get_exception (self : RequirementContext) (path : list string)
  : option RuleException :=
  exceptions self !! path.

(** [needle in hay] on two strings. *)
Definition str_contains (hay needle : string) : bool :=
  match String.index 0 needle hay with
  | Some _ => true
  | None => false
  end.

(** [BaseCourseRule.is_equivalent_to_clause]: [x in expected] is a
    membership test on a tuple, a substring test on a string, and a
    [TypeError] on a value that is not iterable. *)
Definition is_equivalent_to_clause (self : BaseCourseRule) (clause : SingleClause)
  : outcome bool :=
  if negb (String.eqb (key clause) "course") then Ok false
  else
    match operator clause with
    | EqualTo =>
        match expected clause with
        | EScalar (SStr s) => Ok (String.eqb (rule_course self) s)
        | _ => Ok false
        end
    | In_ =>
        match expected clause with
        | ETuple xs => Ok (existsb (Scalar_eqb (SStr (rule_course self))) xs)
        | EScalar (SStr s) => Ok (str_contains s (rule_course self))
        | EScalar _ => Raise TypeError
        end
    | _ => Ok false
    end.

(** The single clause [make_claim] builds from a course rule. *)
Definition single_of_rule (r : BaseCourseRule) : SingleClause :=
  {| key := "course";
     expected := EScalar (SStr (rule_course r));
     expected_verbatim := EScalar (SStr (rule_course r));
     operator := EqualTo;
     at_most := false;
     treat_in_progress_as_pass := false |}.

(** The clause a call is about: the one passed, or the one a course rule
    is coerced to. *)
Definition clause_of_arg (arg : ClauseArg) : option Clause :=
  match arg with
  | ArgClause c => Some c
  | ArgRule r => Some (clause_of_rule r)
  | ArgNone | ArgTuple _ => None
  end.

(** A course rule for the course of scenario D, not marked
    [allow_claimed]. *)
Definition hist_210_rule : BaseCourseRule :=
  {| rule_course := "HIST 210";
     hidden := false;
     grade := None;
     rule_allow_claimed := false;
     rule_path := ["$major"; "*HIST 210"] |}.

(** A policy with one clauseset, for concrete runs. *)
Definition elective : Clause := Single (eq_clause "attributes" "elective").

Definition one_pair_context : RequirementContext :=
  {| transcript_ := [];
     course_lookup_map_ := ∅;
     clbid_lookup_map_ := ∅;
     areas := [];
     multicountable :=
       [ [eq_clause "attributes" "elective"; eq_clause "attributes" "post1800"] ];
     claims := ∅;
     exceptions := ∅ |}.

Definition two_courses : list CourseInstance :=
  [ scenario_D_course;
    {| clbid := "c2";
       crsid := "crs2";
       course := "AP MATH";
       subject := ["MATH"];
       grade_points := 4;
       grade_option := NoGrade;
       credits := 1;
       course_type := AP;
       is_in_progress := false;
       is_in_progress_this_term := false;
       is_in_progress_in_future := false;
       is_incomplete := false;
       is_in_gpa := false;
       attributes := [];
       year := 2018;
       term := 1;
       section_ := None |} ].

(** Contexts in which course [c1] has already been claimed: once and
    twice under the one-pair policy, and once under no policy at all. *)
Definition claimed_once : RequirementContext :=
  with_claims one_pair_context
    {[ "c1" := [claim_of scenario_D_course ["query-a"] elective] ]}.

Definition claimed_twice : RequirementContext :=
  with_claims one_pair_context
    {[ "c1" := [claim_of scenario_D_course ["query-a"] elective;
                claim_of scenario_D_course ["query-b"] post1800] ]}.

Definition claimed_without_policy : RequirementContext :=
  with_claims empty_context
    {[ "c1" := [claim_of scenario_D_course ["query-a"] elective] ]}.

End Degreepath.


(** ** [dp]: assertions, conditional assertions and requirements *)

Module Dp.

(** Modelled from the spec: [ResultStatus] and [PassingStatuses]
    ([dp/status.py] is not part of the sources at hand), section 3. *)
Inductive ResultStatus : Type :=
| Empty
| NeedsMoreItems
| PendingCurrent
| PendingRegistered
| PendingApproval
| Done
| Waived
| FailedInvariant.

Definition PassingStatuses : list ResultStatus :=
  [Done; Waived; PendingCurrent; PendingRegistered; PendingApproval].

Definition ResultStatus_eqb (a b : ResultStatus) : bool :=
  match a, b with
  | Empty, Empty
  | NeedsMoreItems, NeedsMoreItems
  | PendingCurrent, PendingCurrent
  | PendingRegistered, PendingRegistered
  | PendingApproval, PendingApproval
  | Done, Done
  | Waived, Waived
  | FailedInvariant, FailedInvariant => true
  | _, _ => false
  end.

(** [status in PassingStatuses] *)
Definition is_passing (s : ResultStatus) : bool :=
  existsb (ResultStatus_eqb s) PassingStatuses.

Module AssertionClause.

Definition ONE_POINT_OH : Q := 1.
Definition ZERO_POINT_OH : Q := 0.

Inductive DataType : Type := Course | Area | MusicPerformance | Recital.

Inductive ValueChangeMode : Type := Add | Subtract.

(** [dp/conditional_expression.py]: predicate expressions and the [result]
    attribute every variant carries. *)
Inductive PredicateExpressionFunction : Type :=
| HasIpCourse
| HasCompletedCourse
| HasCourse
| PassedProficiencyExam
| HasDeclaredAreaCode
| RequirementIsSatisfied.

Inductive SomePredicateExpression : Type :=
| PredicateExpressionCompoundAnd
    (expressions : list SomePredicateExpression) (result : option bool)
| PredicateExpressionCompoundOr
    (expressions : list SomePredicateExpression) (result : option bool)
| PredicateExpressionNot
    (expression : SomePredicateExpression) (result : option bool)
| PredicateExpression
    (function : PredicateExpressionFunction) (argument : string)
    (result : option bool).

Definition result (e : SomePredicateExpression) : option bool :=
  match e with
  | PredicateExpressionCompoundAnd _ r
  | PredicateExpressionCompoundOr _ r
  | PredicateExpressionNot _ r
  | PredicateExpression _ _ r => r
  end.

Record ValueChange : Type := {
  mode : ValueChangeMode;
  expression : SomePredicateExpression;
  amount : Q;
}.

(** What an assertion is run over: courses, declared areas, or music items
    (the latter known here only by name). *)
Inductive Clausable : Type :=
| ClCourse (c : CourseInstance)
| ClArea (a : AreaPointer)
| ClOther (item : string).

Inductive ItemsData : Type :=
| DataStrs (items : list string)
| DataDecimals (items : list Q).

(** [AppliedClauseResult], with the three attributes the code reads. *)
Record AppliedClauseResult : Type := {
  value : Q;
  data : ItemsData;
  courses : list CourseInstance;
}.

Section Assertions.

(** [SomePredicate] and its [apply] come from [dp/predicate_clause.py]. *)
Variable SomePredicate : Type.
Variable predicate_apply : SomePredicate -> Clausable -> bool.

Record Assertion : Type := {
  path : list string;
  state : ResultStatus;
  data_type : DataType;
  where_ : option SomePredicate;
  key : string;
  operator : Operator;
  expected : Q;
  original : option (string + Q);
  changes : list ValueChange;
  at_most : bool;
  message : option string;
  label : option string;
  treat_in_progress_as_pass : bool;
  evaluated : bool;
  overridden : bool;
  resolved : option Q;
  resolved_items : option ItemsData;
  resolved_clbids : option (list string);
  inserted_clbids : option (list string);
}.

Record ConditionalAssertion : Type := {
  cond_path : list string;
  condition : SomePredicateExpression;
  when_true : Assertion;
  when_false : option Assertion;
}.

Inductive SomeAssertion : Type :=
| IsAssertion (a : Assertion)
| IsConditional (c : ConditionalAssertion).

(** The collaborators that are imported from modules outside the sources at
    hand: the operator table of [dp/op.py], the reducers of
    [dp/apply_clause.py] and the two context methods an assertion calls. *)
Variable apply_operator : Q -> Operator -> Q -> outcome bool.
Variable apply_clause_to_assertion_with_courses :
  Assertion -> list CourseInstance -> outcome AppliedClauseResult.
Variable apply_clause_to_assertion_with_areas :
  Assertion -> list AreaPointer -> outcome AppliedClauseResult.
Variable apply_clause_to_assertion_with_data :
  Assertion -> list Clausable -> outcome AppliedClauseResult.
Variable RequirementContext : Type.
Variable get_insert_exceptions : RequirementContext -> list string -> list string.
Variable forced_course_by_clbid :
  RequirementContext -> string -> list string -> outcome CourseInstance.

(** *** [attr.evolve] on an [Assertion]

    [evolve(inst, **changes)] completes [changes] with the instance's own
    attributes and calls the class on the resulting keywords; the generated
    [__init__] raises [TypeError] on a keyword that is not an attribute. *)
Inductive AttrValue : Type :=
| AvPath (p : list string)
| AvStatus (s : ResultStatus)
| AvDataType (d : DataType)
| AvWhere (w : option SomePredicate)
| AvStr (s : string)
| AvOperator (o : Operator)
| AvDecimal (q : Q)
| AvOriginal (o : option (string + Q))
| AvChanges (c : list ValueChange)
| AvBool (b : bool)
| AvOptStr (s : option string)
| AvOptDecimal (q : option Q)
| AvOptItems (d : option ItemsData)
| AvOptClbids (l : option (list string)).

Definition Assertion_attrs : list string :=
  [ "path"; "state"; "data_type"; "where"; "key"; "operator"; "expected";
    "original"; "changes"; "at_most"; "message"; "label";
    "treat_in_progress_as_pass"; "evaluated"; "overridden"; "resolved";
    "resolved_items"; "resolved_clbids"; "inserted_clbids" ].

Definition Assertion_getattr (inst : Assertion) (name : string) : option AttrValue :=
  if String.eqb name "path" then Some (AvPath (path inst))
  else if String.eqb name "state" then Some (AvStatus (state inst))
  else if String.eqb name "data_type" then Some (AvDataType (data_type inst))
  else if String.eqb name "where" then Some (AvWhere (where_ inst))
  else if String.eqb name "key" then Some (AvStr (key inst))
  else if String.eqb name "operator" then Some (AvOperator (operator inst))
  else if String.eqb name "expected" then Some (AvDecimal (expected inst))
  else if String.eqb name "original" then Some (AvOriginal (original inst))
  else if String.eqb name "changes" then Some (AvChanges (changes inst))
  else if String.eqb name "at_most" then Some (AvBool (at_most inst))
  else if String.eqb name "message" then Some (AvOptStr (message inst))
  else if String.eqb name "label" then Some (AvOptStr (label inst))
  else if String.eqb name "treat_in_progress_as_pass"
       then Some (AvBool (treat_in_progress_as_pass inst))
  else if String.eqb name "evaluated" then Some (AvBool (evaluated inst))
  else if String.eqb name "overridden" then Some (AvBool (overridden inst))
  else if String.eqb name "resolved" then Some (AvOptDecimal (resolved inst))
  else if String.eqb name "resolved_items" then Some (AvOptItems (resolved_items inst))
  else if String.eqb name "resolved_clbids" then Some (AvOptClbids (resolved_clbids inst))
  else if String.eqb name "inserted_clbids" then Some (AvOptClbids (inserted_clbids inst))
  else None.

(** Reading a keyword at the type its attribute is declared with.  Python
    stores whatever it is given; every call in the sources passes a value
    of the declared type, and the record cannot hold another. *)
Definition kw {A : Type} (kwargs : gmap string AttrValue) (name : string)
    (proj : AttrValue -> option A) : outcome A :=
  match kwargs !! name with
  | Some v => match proj v with
              | Some a => Ok a
              | None => Raise TypeError
              end
  | None => Raise TypeError
  end.

(** The generated [Assertion.__init__], called with keywords only. *)
Definition Assertion_init (kwargs : gmap string AttrValue) : outcome Assertion :=
  if negb (forallb (fun kv => existsb (String.eqb (fst kv)) Assertion_attrs)
                   (map_to_list kwargs))
  then Raise TypeError (* got an unexpected keyword argument *)
  else
    a_path ← kw kwargs "path" (fun v => match v with AvPath x => Some x | _ => None end);
    a_state ← kw kwargs "state" (fun v => match v with AvStatus x => Some x | _ => None end);
    a_data_type ← kw kwargs "data_type"
      (fun v => match v with AvDataType x => Some x | _ => None end);
    a_where ← kw kwargs "where" (fun v => match v with AvWhere x => Some x | _ => None end);
    a_key ← kw kwargs "key" (fun v => match v with AvStr x => Some x | _ => None end);
    a_operator ← kw kwargs "operator"
      (fun v => match v with AvOperator x => Some x | _ => None end);
    a_expected ← kw kwargs "expected"
      (fun v => match v with AvDecimal x => Some x | _ => None end);
    a_original ← kw kwargs "original"
      (fun v => match v with AvOriginal x => Some x | _ => None end);
    a_changes ← kw kwargs "changes"
      (fun v => match v with AvChanges x => Some x | _ => None end);
    a_at_most ← kw kwargs "at_most" (fun v => match v with AvBool x => Some x | _ => None end);
    a_message ← kw kwargs "message"
      (fun v => match v with AvOptStr x => Some x | _ => None end);
    a_label ← kw kwargs "label" (fun v => match v with AvOptStr x => Some x | _ => None end);
    a_tipap ← kw kwargs "treat_in_progress_as_pass"
      (fun v => match v with AvBool x => Some x | _ => None end);
    a_evaluated ← kw kwargs "evaluated"
      (fun v => match v with AvBool x => Some x | _ => None end);
    a_overridden ← kw kwargs "overridden"
      (fun v => match v with AvBool x => Some x | _ => None end);
    a_resolved ← kw kwargs "resolved"
      (fun v => match v with AvOptDecimal x => Some x | _ => None end);
    a_resolved_items ← kw kwargs "resolved_items"
      (fun v => match v with AvOptItems x => Some x | _ => None end);
    a_resolved_clbids ← kw kwargs "resolved_clbids"
      (fun v => match v with AvOptClbids x => Some x | _ => None end);
    a_inserted_clbids ← kw kwargs "inserted_clbids"
      (fun v => match v with AvOptClbids x => Some x | _ => None end);
    Ok {| path := a_path;
          state := a_state;
          data_type := a_data_type;
          where_ := a_where;
          key := a_key;
          operator := a_operator;
          expected := a_expected;
          original := a_original;
          changes := a_changes;
          at_most := a_at_most;
          message := a_message;
          label := a_label;
          treat_in_progress_as_pass := a_tipap;
          evaluated := a_evaluated;
          overridden := a_overridden;
          resolved := a_resolved;
          resolved_items := a_resolved_items;
          resolved_clbids := a_resolved_clbids;
          inserted_clbids := a_inserted_clbids |}.

Definition evolve (inst : Assertion) (changes : gmap string AttrValue)
  : outcome Assertion :=
  let complete (kwargs : gmap string AttrValue) (name : string) :=
    match kwargs !! name, Assertion_getattr inst name with
    | None, Some v => <[name := v]> kwargs
    | _, _ => kwargs
    end in
  Assertion_init (fold_left complete Assertion_attrs changes).

(** *** [Assertion] methods *)

Definition waive (self : Assertion) : outcome Assertion :=
  evolve self
    (list_to_map
       [ ("resolved", AvOptDecimal (Some 0%Q));
         ("evaluated", AvBool true);
         ("status", AvStatus Waived);
         ("overridden", AvBool true) ]).

Definition override_expected (self : Assertion) (v : Q) (v_str : string)
  : outcome Assertion :=
  evolve self
    (list_to_map
       [ ("expected", AvDecimal v);
         ("original", AvOriginal (Some (inl v_str))) ]).

Definition status (self : Assertion) : ResultStatus := state self.

Definition is_lt_clause (self : Assertion) : bool :=
  match operator self with
  | LessThan | LessThanOrEqualTo => true
  | _ => false
  end.

Definition is_at_least_0_clause (self : Assertion) : bool :=
  match operator self with
  | GreaterThanOrEqualTo => Qeq_bool (expected self) 0
  | _ => false
  end.

Definition max_expected (self : Assertion) : Q := expected self.

(** Python's [min(a, b)]: [b] when [b < a], else [a]. *)
Definition py_min (a b : Q) : Q :=
  if negb (Qle_bool a b) then b else a.

(** [rank]; the quotient is taken in [Q], where [Decimal] would round it
    to its context precision. *)
Definition rank (self : Assertion) : outcome (Q * Q) :=
  match state self with
  | Done | Waived => Ok (ONE_POINT_OH, ONE_POINT_OH)
  | _ =>
      match resolved self with
      | None => Raise AssertionError
      | Some resolved_ =>
          if is_lt_clause self then Ok (ZERO_POINT_OH, ONE_POINT_OH)
          else if negb (Qeq_bool (expected self) ZERO_POINT_OH)
          then Ok (py_min ONE_POINT_OH (resolved_ / expected self)%Q, ONE_POINT_OH)
          else Ok (ZERO_POINT_OH, ONE_POINT_OH)
      end
  end.

Definition Qlt_bool (a b : Q) : bool := negb (Qle_bool b a).

(** The outcome of a comparison that did not hold, shared by the three
    evaluators: the chain of [elif]s after [operator_result is True]. *)
Definition status_when_false (op : Operator) (computed expected_ : Q) : ResultStatus :=
  match op with
  | GreaterThan =>
      if Qlt_bool 0 computed && Qle_bool computed expected_
      then NeedsMoreItems else Empty
  | GreaterThanOrEqualTo | EqualTo =>
      if Qlt_bool 0 computed && Qlt_bool computed expected_
      then NeedsMoreItems else Empty
  | LessThan | LessThanOrEqualTo => FailedInvariant
  | _ => Empty
  end.

Definition evaluate_with_areas (assertion : Assertion) (value_ : list AreaPointer)
  : outcome (ResultStatus * AppliedClauseResult) :=
  calculated_result ← apply_clause_to_assertion_with_areas assertion value_;
  let computed_value := value calculated_result in
  operator_result ←
    apply_operator computed_value (operator assertion) (expected assertion);
  if (operator_result : bool) then Ok (Done, calculated_result)
  else Ok (status_when_false (operator assertion) computed_value (expected assertion),
           calculated_result).

Definition evaluate_with_items (assertion : Assertion) (value_ : list Clausable)
  : outcome (ResultStatus * AppliedClauseResult) :=
  calculated_result ← apply_clause_to_assertion_with_data assertion value_;
  let computed_value := value calculated_result in
  operator_result ←
    apply_operator computed_value (operator assertion) (expected assertion);
  if (operator_result : bool) then Ok (Done, calculated_result)
  else Ok (status_when_false (operator assertion) computed_value (expected assertion),
           calculated_result).

Definition evaluate_with_courses (assertion : Assertion) (value_ : list CourseInstance)
  : outcome (ResultStatus * AppliedClauseResult) :=
  calculated_result ← apply_clause_to_assertion_with_courses assertion value_;
  operator_result ←
    apply_operator (value calculated_result) (operator assertion) (expected assertion);
  if (operator_result : bool) then
    let has_ip_courses := existsb is_in_progress (courses calculated_result) in
    operator_result_no_ip ←
      (if has_ip_courses then
         (* does the clause still pass if it's given only non-IP courses? *)
         let non_ip_courses :=
           List.filter (fun c => negb (is_in_progress c)) value_ in
         calculated_result_no_ip ←
           apply_clause_to_assertion_with_courses assertion non_ip_courses;
         apply_operator (value calculated_result_no_ip)
                        (operator assertion) (expected assertion)
       else Ok true);
    if treat_in_progress_as_pass assertion || (operator_result_no_ip : bool)
    then Ok (Done, calculated_result)
    else if has_ip_courses then
      let has_enrolled_courses :=
        existsb is_in_progress_this_term (courses calculated_result) in
      let has_registered_courses :=
        existsb is_in_progress_in_future (courses calculated_result) in
      let has_incomplete_courses :=
        existsb is_incomplete (courses calculated_result) in
      if negb (has_enrolled_courses || has_registered_courses || has_incomplete_courses)
      then Raise AssertionError
      else if (has_enrolled_courses || has_incomplete_courses)
              && negb has_registered_courses
      then Ok (PendingCurrent, calculated_result)
      else if has_registered_courses
      then Ok (PendingRegistered, calculated_result)
      else Raise (Exception_ "unreachable")
    else Ok (Done, calculated_result)
  else Ok (status_when_false (operator assertion) (value calculated_result)
                             (expected assertion),
           calculated_result).

(** [cast] does nothing at run time; an item of another kind would fail
    at its first course (or area) attribute, which is reported here. *)
Definition as_course (x : Clausable) : outcome CourseInstance :=
  match x with
  | ClCourse c => Ok c
  | _ => Raise AttributeError
  end.

Definition as_area (x : Clausable) : outcome AreaPointer :=
  match x with
  | ClArea a => Ok a
  | _ => Raise AttributeError
  end.

Definition evaluate (self : Assertion) (value_ : list Clausable)
  : outcome (ResultStatus * AppliedClauseResult) :=
  match data_type self with
  | Course => cs ← mapM as_course value_; evaluate_with_courses self cs
  | Area => ars ← mapM as_area value_; evaluate_with_areas self ars
  | MusicPerformance | Recital => evaluate_with_items self value_
  end.

Definition audit_and_resolve (self : Assertion) (data_ : list Clausable)
    (ctx : RequirementContext) : outcome Assertion :=
  if overridden self then Ok self
  else
    let filtered_output :=
      match where_ self with
      | Some w => List.filter (predicate_apply w) data_
      | None => data_
      end in
    inserted ←
      mapM (fun insert_clbid => forced_course_by_clbid ctx insert_clbid (path self))
           (get_insert_exceptions ctx (path self));
    let filtered_output := (filtered_output ++ map ClCourse inserted)%list in
    let inserted_clbids_ := map clbid inserted in
    '(result_status, calculated_result) ← evaluate self filtered_output;
    evolve self
      (list_to_map
         [ ("evaluated", AvBool true);
           ("state", AvStatus result_status);
           ("resolved", AvOptDecimal (Some (value calculated_result)));
           ("resolved_items", AvOptItems (Some (data calculated_result)));
           ("resolved_clbids",
            AvOptClbids (Some (map clbid (courses calculated_result))));
           ("inserted_clbids", AvOptClbids (Some inserted_clbids_)) ]).

Definition compute_change_diff (changes_ : list ValueChange) : Q :=
  fold_left
    (fun diff_value change =>
       match result (expression change) with
       | Some true =>
           match mode change with
           | Add => (diff_value + amount change)%Q
           | Subtract => (diff_value - amount change)%Q
           end
       | _ => diff_value
       end)
    changes_ 0%Q.

(** *** [ConditionalAssertion] methods

    [attr.evolve(self, when_true=...)] and [attr.evolve(self,
    when_false=...)] name declared attributes, so they are plain record
    updates. *)
Definition conditional_audit_and_resolve (self : ConditionalAssertion)
    (data_ : list Clausable) (ctx : RequirementContext)
  : outcome ConditionalAssertion :=
  match result (condition self) with
  | Some true =>
      when_true_ ← audit_and_resolve (when_true self) data_ ctx;
      Ok {| cond_path := cond_path self;
            condition := condition self;
            when_true := when_true_;
            when_false := when_false self |}
  | Some false =>
      match when_false self with
      | Some wf =>
          when_false_ ← audit_and_resolve wf data_ ctx;
          Ok {| cond_path := cond_path self;
                condition := condition self;
                when_true := when_true self;
                when_false := Some when_false_ |}
      | None => Ok self
      end
  | None => Raise (Exception_ "conditional assertion condition not evaluated!")
  end.

Definition conditional_status (self : ConditionalAssertion) : ResultStatus :=
  match result (condition self), when_false self with
  | Some true, _ => status (when_true self)
  | Some false, Some wf => status wf
  | _, _ => Empty
  end.

Definition conditional_rank (self : ConditionalAssertion) : outcome (Q * Q) :=
  match result (condition self), when_false self with
  | Some true, _ => rank (when_true self)
  | Some false, Some wf => rank wf
  | _, _ => Ok (ZERO_POINT_OH, ONE_POINT_OH)
  end.

Definition conditional_max_expected (self : ConditionalAssertion) : Q :=
  match when_false self with
  | Some wf => Qmax (expected (when_true self)) (expected wf)
  | None => expected (when_true self)
  end.

End Assertions.

Arguments path {SomePredicate} _.
Arguments state {SomePredicate} _.
Arguments data_type {SomePredicate} _.
Arguments where_ {SomePredicate} _.
Arguments key {SomePredicate} _.
Arguments operator {SomePredicate} _.
Arguments expected {SomePredicate} _.
Arguments original {SomePredicate} _.
Arguments changes {SomePredicate} _.
Arguments at_most {SomePredicate} _.
Arguments message {SomePredicate} _.
Arguments label {SomePredicate} _.
Arguments treat_in_progress_as_pass {SomePredicate} _.
Arguments evaluated {SomePredicate} _.
Arguments overridden {SomePredicate} _.
Arguments resolved {SomePredicate} _.
Arguments resolved_items {SomePredicate} _.
Arguments resolved_clbids {SomePredicate} _.
Arguments inserted_clbids {SomePredicate} _.
Arguments cond_path {SomePredicate} _.
Arguments condition {SomePredicate} _.
Arguments when_true {SomePredicate} _.
Arguments when_false {SomePredicate} _.
Arguments waive {SomePredicate} self.
Arguments override_expected {SomePredicate} self v v_str.
Arguments status {SomePredicate} self.
Arguments rank {SomePredicate} self.
Arguments evolve {SomePredicate} inst changes.
Arguments evaluate_with_courses {SomePredicate} _ _ assertion value_.
Arguments evaluate_with_areas {SomePredicate} _ _ assertion value_.
Arguments evaluate_with_items {SomePredicate} _ _ assertion value_.
Arguments evaluate {SomePredicate} _ _ _ _ self value_.
Arguments audit_and_resolve {SomePredicate} _ _ _ _ _ {RequirementContext} _ _ self data_ ctx.
Arguments conditional_audit_and_resolve
  {SomePredicate} _ _ _ _ _ {RequirementContext} _ _ self data_ ctx.
Arguments conditional_status {SomePredicate} self.
Arguments conditional_rank {SomePredicate} self.

(** *** Collaborators modelled for concrete runs *)

(** Modelled from the spec: [apply_operator] ([dp/op.py] is not part of the
    sources at hand): the numeric comparison named by the operator
    (section 2, component 3); IN and NOT_IN require a sequence (section
    4.1) and an assertion's [expected] is a decimal. *)
Definition apply_operator_model (lhs : Q) (op : Operator) (rhs : Q) : outcome bool :=
  match op with
  | EqualTo => Ok (Qeq_bool lhs rhs)
  | NotEqualTo => Ok (negb (Qeq_bool lhs rhs))
  | LessThan => Ok (Qlt_bool lhs rhs)
  | LessThanOrEqualTo => Ok (Qle_bool lhs rhs)
  | GreaterThan => Ok (Qlt_bool rhs lhs)
  | GreaterThanOrEqualTo => Ok (Qle_bool rhs lhs)
  | In_ | NotIn => Raise TypeError
  end.

(** Modelled from the spec: the course reducers [count(courses)] and
    [sum(credits)] of section 4.2 ([dp/apply_clause.py] is not part of the
    sources at hand); the reduced value is the number of courses, or the
    sum of their credits, and every course given is reported back. *)
Definition course_reducer_model {P : Type} (assertion : Assertion P)
    (value_ : list CourseInstance) : outcome AppliedClauseResult :=
  if String.eqb (key assertion) "count(courses)" then
    Ok {| value := inject_Z (Z.of_nat (length value_));
          data := DataStrs (map clbid value_);
          courses := value_ |}
  else if String.eqb (key assertion) "sum(credits)" then
    Ok {| value := fold_left Qplus (map credits value_) 0%Q;
          data := DataDecimals (map credits value_);
          courses := value_ |}
  else Raise TypeError.

(** Modelled from the spec: [count(areas)] (section 4.2). *)
Definition area_reducer_model {P : Type} (assertion : Assertion P)
    (value_ : list AreaPointer) : outcome AppliedClauseResult :=
  if String.eqb (key assertion) "count(areas)" then
    Ok {| value := inject_Z (Z.of_nat (length value_));
          data := DataStrs (map area_code value_);
          courses := [] |}
  else Raise TypeError.

(** Modelled from the spec: [count(performances)] and [count(recitals)]
    (section 4.2). *)
Definition data_reducer_model {P : Type} (assertion : Assertion P)
    (value_ : list Clausable) : outcome AppliedClauseResult :=
  if String.eqb (key assertion) "count(performances)"
     || String.eqb (key assertion) "count(recitals)" then
    Ok {| value := inject_Z (Z.of_nat (length value_));
          data := DataStrs [];
          courses := [] |}
  else Raise TypeError.

(** Modelled from the spec: the part of the [dp] requirement context an
    assertion uses ([dp/context.py] is not part of the sources at hand): the
    insert exceptions by rule path (section 4.6) and the lookup of a forced
    course, which fails when the [clbid] is absent from the transcript
    (section 7). *)
Record ContextModel : Type := {
  insert_exceptions : gmap (list string) (list string);
  clbid_lookup_map : gmap string CourseInstance;
}.

Definition get_insert_exceptions_model (ctx : ContextModel) (p : list string)
  : list string :=
  default [] (insert_exceptions ctx !! p).

Definition forced_course_by_clbid_model (ctx : ContextModel) (id : string)
    (p : list string) : outcome CourseInstance :=
  match clbid_lookup_map ctx !! id with
  | Some c => Ok c
  | None => Raise (Exception_ "clbid not found in the transcript")
  end.

Definition empty_context_model : ContextModel :=
  {| insert_exceptions := ∅; clbid_lookup_map := ∅ |}.

(** A predicate given by its [apply]. *)
Definition PredicateModel : Type := Clausable -> bool.
Definition predicate_apply_model (p : PredicateModel) (x : Clausable) : bool := p x.

(** [Assertion.from_args], with the defaults of its signature. *)
Definition from_args (key_ : string) (expected_ : Q) (operator_ : Operator)
    (treat_in_progress_as_pass_ : bool) : Assertion PredicateModel :=
  {| path := [];
     state := Empty;
     data_type := Course;
     where_ := None;
     key := key_;
     operator := operator_;
     expected := expected_;
     original := None;
     changes := [];
     at_most := false;
     message := None;
     label := None;
     treat_in_progress_as_pass := treat_in_progress_as_pass_;
     evaluated := false;
     overridden := false;
     resolved := None;
     resolved_items := None;
     resolved_clbids := None;
     inserted_clbids := None |}.

(** A transcript line, varying only in what the evaluators read. *)
Definition a_course (id : string) (in_progress this_term in_future incomplete : bool)
  : CourseInstance :=
  {| clbid := id;
     crsid := id;
     course := "MATH 101";
     subject := ["MATH"];
     grade_points := 0;
     grade_option := Graded;
     credits := 1;
     course_type := Regular;
     is_in_progress := in_progress;
     is_in_progress_this_term := this_term;
     is_in_progress_in_future := in_future;
     is_incomplete := incomplete;
     is_in_gpa := true;
     attributes := [];
     year := 2020;
     term := 1;
     section_ := None |}.

(** [if has-declared-area-code("130") then count(courses) >= 4], with no
    [else], for a student who has not declared area 130. *)
Definition conditional_without_else : ConditionalAssertion PredicateModel :=
  {| cond_path := ["$major"; ".query"; ".assertions"];
     condition := PredicateExpression HasDeclaredAreaCode "130" (Some false);
     when_true := from_args "count(courses)" 4 GreaterThanOrEqualTo false;
     when_false := None |}.

(** *** [input_size_range] *)

(** [range(a, b)] *)
Definition py_range (a b : Z) : list Z :=
  map (fun i => (a + Z.of_nat i)%Z) (seq 0 (Z.to_nat (b - a))).

(** [int(d)] on a decimal: truncation towards zero. *)
Definition int_of_decimal (d : Q) : Z := Z.quot (Qnum d) (Zpos (Qden d)).

(** The generator, as the list of what it yields; both of its [raise]s
    come before any [yield]. *)
Definition input_size_range {P : Type} (assertion : Assertion P) (maximum : Z)
  : outcome (list Z) :=
  let expected_ := int_of_decimal (expected assertion) in
  if negb (Qeq_bool (expected assertion) (inject_Z expected_)) then Raise TypeError
  else
    match operator assertion, at_most assertion with
    | EqualTo, _ | GreaterThanOrEqualTo, true =>
        if Qlt_bool (inject_Z maximum) (expected assertion) then Ok [maximum]
        else Ok (py_range expected_ (expected_ + 1))
    | NotEqualTo, _ =>
        (* from 0-maximum, skipping "expected" *)
        Ok (py_range 0 expected_
            ++ py_range (expected_ + 1) (Z.max (expected_ + 1) (maximum + 1)))%list
    | GreaterThanOrEqualTo, false =>
        if (maximum <? expected_)%Z then Ok [maximum]
        else Ok (py_range expected_ (Z.max (expected_ + 1) (maximum + 1)))
    | GreaterThan, _ =>
        if (maximum <? expected_)%Z then Ok [maximum]
        else Ok (py_range (expected_ + 1) (Z.max (expected_ + 2) (maximum + 1)))
    | LessThan, _ => Ok (py_range 0 expected_)
    | LessThanOrEqualTo, _ => Ok (py_range 0 (expected_ + 1))
    | _, _ => Raise TypeError
    end.

Definition conditional_input_size_range {P : Type} (self : ConditionalAssertion P)
    (maximum : Z) : outcome (list Z) :=
  match result (condition self), when_false self with
  | Some true, _ => input_size_range (when_true self) maximum
  | Some false, Some wf => input_size_range wf maximum
  | _, _ => input_size_range (when_true self) maximum
  end.


(** *** [dp/conditional_expression.py]: loading and evaluating *)

(** What the YAML loader hands over: [None], booleans, integers, floats,
    strings, lists, and dicts with string keys in file order (the keys of a
    dict are distinct). *)
Inductive PyVal : Type :=
| PNone
| PBool (b : bool)
| PInt (z : Z)
| PFloat (q : Q)
| PStr (s : string)
| PList (items : list PyVal)
| PDict (items : list (string * PyVal)).

Definition has_key (k : string) (items : list (string * PyVal)) : bool :=
  existsb (fun kv => String.eqb k (fst kv)) items.

(** [PredicateExpressionFunction(name)]: the member with that value, if
    any. *)
Definition function_of_name (s : string) : option PredicateExpressionFunction :=
  if String.eqb s "has-ip-course" then Some HasIpCourse
  else if String.eqb s "has-completed-course" then Some HasCompletedCourse
  else if String.eqb s "has-course" then Some HasCourse
  else if String.eqb s "passed-proficiency-exam" then Some PassedProficiencyExam
  else if String.eqb s "has-declared-area-code" then Some HasDeclaredAreaCode
  else if String.eqb s "requirement-is-satisfied" then Some RequirementIsSatisfied
  else None.

Definition is_static (f : PredicateExpressionFunction) : bool :=
  match f with
  | HasDeclaredAreaCode | PassedProficiencyExam | HasCourse
  | HasCompletedCourse | HasIpCourse => true
  | RequirementIsSatisfied => false
  end.

(** Truthiness of an [Optional[bool]]. *)
Definition truthy (r : option bool) : bool :=
  match r with
  | Some true => true
  | _ => false
  end.

(** Modelled from the spec: the five questions a static predicate asks of
    the [dp] requirement context ([dp/context.py] is not part of the sources
    at hand; section 3 names the atoms). *)
Record PredicateContext : Type := {
  has_declared_area_code : string -> bool;
  has_course : string -> bool;
  has_ip_course : string -> bool;
  has_completed_course : string -> bool;
  passed_exam : string -> bool;
}.

Definition evaluate_predicate_function (function : PredicateExpressionFunction)
    (argument : string) (ctx : PredicateContext) : outcome bool :=
  match function with
  | HasDeclaredAreaCode => Ok (has_declared_area_code ctx argument)
  | HasCourse => Ok (has_course ctx argument)
  | HasIpCourse => Ok (has_ip_course ctx argument)
  | HasCompletedCourse => Ok (has_completed_course ctx argument)
  | PassedProficiencyExam => Ok (passed_exam ctx argument)
  | RequirementIsSatisfied => Raise TypeError
  end.

(** [evaluate] of an expression: each variant sets [result] to what its [check] returns.
    The compound [check]s apply [all], [any] and [not] to what the operands'
    [evaluate] returns, which is an expression object and as such always
    true: [all] runs through every operand, [any] stops at the first. *)
Fixpoint expression_evaluate (e : SomePredicateExpression) (ctx : PredicateContext)
  : outcome SomePredicateExpression :=
  match e with
  | PredicateExpressionCompoundAnd expressions _ =>
      _ ← (fix all_ (es : list SomePredicateExpression) : outcome unit :=
             match es with
             | [] => Ok tt
             | x :: xs => _ ← expression_evaluate x ctx; all_ xs
             end) expressions;
      Ok (PredicateExpressionCompoundAnd expressions (Some true))
  | PredicateExpressionCompoundOr expressions _ =>
      match expressions with
      | [] => Ok (PredicateExpressionCompoundOr expressions (Some false))
      | x :: _ =>
          _ ← expression_evaluate x ctx;
          Ok (PredicateExpressionCompoundOr expressions (Some true))
      end
  | PredicateExpressionNot expression _ =>
      _ ← expression_evaluate expression ctx;
      Ok (PredicateExpressionNot expression (Some false))
  | PredicateExpression function argument _ =>
      r ← evaluate_predicate_function function argument ctx;
      Ok (PredicateExpression function argument (Some r))
  end.

(** [PredicateExpression.can_load] *)
Definition can_load_atom (items : list (string * PyVal)) : bool :=
  match items with
  | [(function_name, _)] =>
      match function_of_name function_name with
      | Some _ => true
      | None => false
      end
  | _ => false
  end.

(** [load_predicate_expression], with the [load] of each variant in its
    branch.  Each compound [load] first asserts that its key is the only
    one, so the operands are the value of the single item.  A string or a
    list has no [keys()], and [in] does not apply to a value that is not a
    container. *)
Fixpoint load_predicate_expression (data : PyVal) (ctx : PredicateContext)
  : outcome SomePredicateExpression :=
  let fix load_all (es : list PyVal) : outcome (list SomePredicateExpression) :=
    match es with
    | [] => Ok []
    | x :: xs =>
        e ← load_predicate_expression x ctx;
        rest ← load_all xs;
        Ok (e :: rest)
    end in
  match data with
  | PDict items =>
      if has_key "$and" items then
        match items with
        | [(_, operands)] =>
            match operands with
            | PList es =>
                clauses ← load_all es;
                Ok (PredicateExpressionCompoundAnd clauses
                      (Some (forallb (fun e => truthy (result e)) clauses)))
            | _ => Raise AssertionError
            end
        | _ => Raise AssertionError
        end
      else if has_key "$or" items then
        match items with
        | [(_, operands)] =>
            match operands with
            | PList es =>
                clauses ← load_all es;
                Ok (PredicateExpressionCompoundOr clauses
                      (Some (existsb (fun e => truthy (result e)) clauses)))
            | _ => Raise AssertionError
            end
        | _ => Raise AssertionError
        end
      else if has_key "$not" items then
        match items with
        | [(_, inner)] =>
            expression ← load_predicate_expression inner ctx;
            Ok (PredicateExpressionNot expression (result expression))
        | _ => Raise AssertionError
        end
      else if can_load_atom items then
        match items with
        | [(function_name, argument)] =>
            match function_of_name function_name, argument with
            | Some function, PStr arg =>
                if is_static function then
                  r ← evaluate_predicate_function function arg ctx;
                  Ok (PredicateExpression function arg (Some r))
                else Ok (PredicateExpression function arg None)
            | _, _ => Raise AssertionError
            end
        | _ => Raise AssertionError
        end
      else Raise TypeError
  | PStr _ | PList _ => Raise AttributeError
  | PNone | PBool _ | PInt _ | PFloat _ => Raise TypeError
  end.

(** The condition of a [ValueChange], as [ValueChange.load] obtains it:
    loaded, then evaluated. *)
Definition load_change_condition (data : PyVal) (ctx : PredicateContext)
  : outcome SomePredicateExpression :=
  predicate_key ← load_predicate_expression data ctx;
  expression_evaluate predicate_key ctx.

(** A student who has declared area 130 and nothing else. *)
Definition declared_130 : PredicateContext :=
  {| has_declared_area_code := fun code => String.eqb code "130";
     has_course := fun _ => false;
     has_ip_course := fun _ => false;
     has_completed_course := fun _ => false;
     passed_exam := fun _ => false |}.

(** Concrete assertions: [count(courses) >= 4] audited over two completed
    courses, and scenario F of the spec, before and after its audit over
    three completed courses. *)
Definition two_completed : list Clausable :=
  [ ClCourse (a_course "c1" false false false false);
    ClCourse (a_course "c2" false false false false) ].

Definition three_completed : list Clausable :=
  [ ClCourse (a_course "c1" false false false false);
    ClCourse (a_course "c2" false false false false);
    ClCourse (a_course "c3" false false false false) ].

Definition audit_with_models (a : Assertion PredicateModel) (data_ : list Clausable)
  : outcome (Assertion PredicateModel) :=
  audit_and_resolve predicate_apply_model apply_operator_model course_reducer_model
    area_reducer_model data_reducer_model get_insert_exceptions_model
    forced_course_by_clbid_model a data_ empty_context_model.

Definition conditional_audit_with_models (c : ConditionalAssertion PredicateModel)
    (data_ : list Clausable) : outcome (ConditionalAssertion PredicateModel) :=
  conditional_audit_and_resolve predicate_apply_model apply_operator_model
    course_reducer_model area_reducer_model data_reducer_model
    get_insert_exceptions_model forced_course_by_clbid_model c data_
    empty_context_model.

Definition short_by_two : Assertion PredicateModel :=
  Eval vm_compute in
    match audit_with_models
            (from_args "count(courses)" 4 GreaterThanOrEqualTo false) two_completed with
    | Ok a => a
    | Raise _ => from_args "count(courses)" 4 GreaterThanOrEqualTo false
    end.

Definition scenario_F : ConditionalAssertion PredicateModel :=
  {| cond_path := ["$major"; ".query"; ".assertions"];
     condition := PredicateExpression HasDeclaredAreaCode "130" (Some true);
     when_true := from_args "count(courses)" 4 GreaterThanOrEqualTo false;
     when_false := Some (from_args "count(courses)" 2 GreaterThanOrEqualTo false) |}.

Definition scenario_F_audited : ConditionalAssertion PredicateModel :=
  Eval vm_compute in
    match conditional_audit_with_models scenario_F three_completed with
    | Ok c => c
    | Raise _ => scenario_F
    end.

End AssertionClause.

(** *** [dp/base/requirement.py] *)

Module Requirement.

(** What a requirement asks of the rule it wraps: the [status] and [rank]
    every rule provides. *)
Class Rule (R : Type) : Type := {
  rule_status : R -> outcome ResultStatus;
  rule_rank : R -> outcome (Q * Q);
}.

(** Modelled from the spec: the attributes a rule inherits from [Base]
    ([dp/base/bases.py] is not part of the sources at hand): its path
    (section 3) and whether a waive exception overrides it (section 4.6). *)
Record Base : Type := {
  path : list string;
  overridden : bool;
}.

Section BaseRequirementRule.

Context {R : Type} `{Rule R}.

Record BaseRequirementRule : Type := {
  base : Base;
  name : string;
  message : option string;
  result : option R;
  is_audited : bool;
  is_contract : bool;
  in_gpa : bool;
  disjoint : option bool;
}.

(** The inherited [Base.status] and [Base.waived], reached through
    [super()] and [self]. *)
Variable Base_status : BaseRequirementRule -> outcome ResultStatus.
Variable Base_waived : BaseRequirementRule -> bool.

Definition status (self : BaseRequirementRule) : outcome ResultStatus :=
  match result self with
  | None => Base_status self
  | Some body =>
      if is_audited self then Ok PendingApproval
      else rule_status body
  end.

Definition rank (self : BaseRequirementRule) : outcome (Q * Q) :=
  if is_audited self && Base_waived self then Ok (1%Q, 1%Q)
  else
    match result self with
    | None => Ok (0%Q, 1%Q)
    | Some body =>
        status_ ← status self;
        let boost := if is_passing status_ then Some 1%Q else None in
        '(child_rank, child_max) ← rule_rank body;
        Ok (match boost with Some b => (child_rank + b)%Q | None => child_rank end,
            match boost with Some b => (child_max + b)%Q | None => child_max end)
    end.

Definition is_in_gpa_ (self : BaseRequirementRule) : bool := in_gpa self.

End BaseRequirementRule.

Arguments BaseRequirementRule R : clear implicits.

(** Modelled from the spec: [Base.status] and [Base.waived]
    ([dp/base/bases.py] is not part of the sources at hand): a rule under a
    waive exception is [Waived] (section 4.6); a rule with nothing resolved
    is [Empty] (section 8, scenario B). *)
Definition Base_waived_model {R : Type} (self : BaseRequirementRule R) : bool :=
  overridden (base self).

Definition Base_status_model {R : Type} (self : BaseRequirementRule R)
  : outcome ResultStatus :=
  Ok (if Base_waived_model self then Waived else Empty).

(** A body-less rule type, for requirements that only carry a message. *)
#[global] Instance unit_Rule : Rule unit :=
  {| rule_status := fun _ => Ok Empty;
     rule_rank := fun _ => Ok (0%Q, 1%Q) |}.

(** A department-audited requirement that carries no rule of its own. *)
Definition audited_requirement_without_body : BaseRequirementRule unit :=
  {| base := {| path := ["$major"; "%Senior Project"]; overridden := false |};
     name := "Senior Project";
     message := Some "Approved by the department";
     result := None;
     is_audited := true;
     is_contract := false;
     in_gpa := false;
     disjoint := None |}.

(** The same requirement wrapping a rule. *)
Definition audited_requirement_with_body : BaseRequirementRule unit :=
  {| base := {| path := ["$major"; "%Senior Project"]; overridden := false |};
     name := "Senior Project";
     message := None;
     result := Some tt;
     is_audited := true;
     is_contract := false;
     in_gpa := false;
     disjoint := None |}.

End Requirement.

End Dp.

(** * Properties of claim arbitration *)

Module ClaimArbitration.

Import Degreepath.

Lemma with_claims_same (self : RequirementContext) :
  with_claims self (claims self) = self.
Proof. by destruct self. Qed.

Lemma defaultdict_getitem_nonempty (d : gmap string (list Claim)) k x xs d' :
  defaultdict_getitem d k = (x :: xs, d') -> d' = d /\ d !! k = Some (x :: xs).
Proof.
  unfold defaultdict_getitem.
  destruct (d !! k) as [v|] eqn:E; intros [= <- <-]; auto.
Qed.

Lemma defaultdict_getitem_prior (d : gmap string (list Claim)) k :
  (defaultdict_getitem d k).1 = default [] (d !! k).
Proof. unfold defaultdict_getitem. by destruct (d !! k). Qed.

(** Adding to an entry that holds nothing leaves exactly the new claim,
    whether the key was missing or mapped to the empty set. *)
Lemma claims_add_fresh (d : gmap string (list Claim)) k c :
  default [] (d !! k) = [] ->
  claims_add (defaultdict_getitem d k).2 k c = <[k := [c]]> d.
Proof.
  unfold claims_add, defaultdict_getitem.
  destruct (d !! k) as [v|] eqn:E; simpl; intros Hv.
  - subst v. by rewrite E.
  - rewrite lookup_insert_eq. simpl. by rewrite insert_insert_eq.
Qed.

(** C2: with [allow_claimed=false] and no prior claim for the course's
    [clbid], [make_claim] succeeds (no failure, empty [conflict_with]) and the
    ledger entry of that [clbid] becomes exactly the new claim.  This holds
    for every clause, and for every course rule that is not itself marked
    [allow_claimed]. *)
Theorem make_claim_first_claim_recorded
    (is_subset : SingleClause -> Clause -> bool) (self : RequirementContext)
    (course : CourseInstance) (path : list string) :
  prior_claims self (clbid course) = [] ->
  (forall clause : Clause,
      make_claim is_subset self course path (ArgClause clause) false
      = Ok (success (claim_of course path clause),
            with_claims self
              (<[clbid course := [claim_of course path clause]]> (claims self))))
  /\ (forall r : BaseCourseRule,
        rule_allow_claimed r = false ->
        make_claim is_subset self course path (ArgRule r) false
        = Ok (success (claim_of course path (clause_of_rule r)),
              with_claims self
                (<[clbid course := [claim_of course path (clause_of_rule r)]]>
                   (claims self)))).
Proof.
  unfold prior_claims. intros Hprior.
  assert (Hget : (defaultdict_getitem (claims self) (clbid course)).1 = [])
    by (by rewrite defaultdict_getitem_prior).
  pose proof (claims_add_fresh (claims self) (clbid course)) as Hadd.
  split; [intros clause | intros r Hr];
    unfold make_claim; cbn [mbind outcome_bind bind orb from_option];
    rewrite ?Hr; cbn [orb];
    destruct (defaultdict_getitem (claims self) (clbid course)) as [prior d'] eqn:E;
    cbn [fst snd] in *; subst prior; cbn [is_empty claims with_claims];
    unfold success, claim_of, clause_of_rule;
    rewrite <- (Hadd _ Hprior); reflexivity.
Qed.

Lemma make_claim_first_claim_recorded_witness :
  prior_claims scenario_D_context (clbid scenario_D_course) = []
  /\ make_claim SingleClause_is_subset scenario_D_context scenario_D_course
       ["query-a"] (ArgClause post1800) false
     = Ok (success (claim_of scenario_D_course ["query-a"] post1800),
           with_claims scenario_D_context
             (<[clbid scenario_D_course :=
                  [claim_of scenario_D_course ["query-a"] post1800]]>
                (claims scenario_D_context))).
Proof.
  split; [reflexivity |].
  apply (make_claim_first_claim_recorded SingleClause_is_subset scenario_D_context
           scenario_D_course ["query-a"]).
  reflexivity.
Defined.

(** C3: with [allow_claimed=true], [make_claim] succeeds and hands back the
    context it was given: the ledger is the same after the call as before,
    and the claim is not recorded.  This holds for a clause and for a course
    rule alike. *)
Theorem make_claim_allow_claimed_unrecorded
    (is_subset : SingleClause -> Clause -> bool) (self : RequirementContext)
    (course : CourseInstance) (path : list string) :
  (forall clause : Clause,
      make_claim is_subset self course path (ArgClause clause) true
      = Ok (success (claim_of course path clause), self))
  /\ (forall r : BaseCourseRule,
        make_claim is_subset self course path (ArgRule r) true
        = Ok (success (claim_of course path (clause_of_rule r)), self)).
Proof. split; reflexivity. Qed.

(** C4: a failed claim is atomic.  Whenever [make_claim] returns an attempt
    with [did_fail=true], the ledger of the returned context is the ledger
    it started from. *)
Theorem make_claim_failure_leaves_ledger
    (is_subset : SingleClause -> Clause -> bool) (self self' : RequirementContext)
    (course : CourseInstance) (path : list string) (clause : ClauseArg)
    (allow_claimed : bool) (attempt : ClaimAttempt) :
  make_claim is_subset self course path clause allow_claimed = Ok (attempt, self') ->
  did_fail attempt = true ->
  claims self' = claims self.
Proof.
  unfold make_claim.
  destruct clause as [ | items | c | r]; cbn [mbind outcome_bind bind]; try discriminate;
    (destruct (allow_claimed || _); [intros [= <- <-]; discriminate |]);
    (destruct (defaultdict_getitem (claims self) (clbid course)) as [prior d'] eqn:E);
    (destruct prior as [| p ps]; cbn [is_empty negb];
     [intros [= <- <-]; discriminate |]);
    apply defaultdict_getitem_nonempty in E as [-> _];
    repeat match goal with
           | |- context [if is_empty ?l then _ else _] => destruct (is_empty l)
           | |- context [match ?o with Some _ => _ | None => _ end] => destruct o
           end;
    intros [= <- <-]; intros; try discriminate; reflexivity.
Qed.

Lemma make_claim_failure_leaves_ledger_witness :
  make_claim SingleClause_is_subset (scenario_D_after_first ["query-a"])
    scenario_D_course ["query-b"] (ArgClause war) false
  = Ok (conflict (claim_of scenario_D_course ["query-b"] war)
                 [scenario_D_first ["query-a"]],
        scenario_D_after_first ["query-a"])
  /\ did_fail (conflict (claim_of scenario_D_course ["query-b"] war)
                        [scenario_D_first ["query-a"]]) = true
  /\ claims (scenario_D_after_first ["query-a"])
     = claims (scenario_D_after_first ["query-a"]).
Proof.
  split; [vm_compute; reflexivity |].
  split; [reflexivity |].
  apply (make_claim_failure_leaves_ledger SingleClause_is_subset
           (scenario_D_after_first ["query-a"]) (scenario_D_after_first ["query-a"])
           scenario_D_course ["query-b"] (ArgClause war) false
           (conflict (claim_of scenario_D_course ["query-b"] war)
                     [scenario_D_first ["query-a"]])).
  - vm_compute. reflexivity.
  - reflexivity.
Defined.

(** C1: scenario D.  Under the policy [[elective, post1800], [elective,
    war]], the first claim of course [c1] under [{attributes: post1800}]
    succeeds and is recorded; a second claim of [c1], from any claimant
    path, under [{attributes: war}] with [allow_claimed=false] then fails,
    and its [conflict_with] is exactly the prior claim; the ledger stays as
    the first claim left it. *)
Theorem scenario_D_second_claim_conflicts (path_a path_b : list string) :
  make_claim SingleClause_is_subset scenario_D_context scenario_D_course
    path_a (ArgClause post1800) false
  = Ok (success (scenario_D_first path_a), scenario_D_after_first path_a)
  /\ make_claim SingleClause_is_subset (scenario_D_after_first path_a)
       scenario_D_course path_b (ArgClause war) false
     = Ok (conflict (claim_of scenario_D_course path_b war) [scenario_D_first path_a],
           scenario_D_after_first path_a).
Proof. split; vm_compute; reflexivity. Qed.

(** No call of [completed_courses] returns, whatever stack it is given. *)
Lemma completed_courses_raises (depth : nat) (self : RequirementContext) :
  completed_courses depth self = Raise RecursionError.
Proof.
  induction depth as [| depth IH]; [reflexivity |].
  cbn [completed_courses]. rewrite IH. reflexivity.
Qed.

(** Every state reachable from a call is again a pending call. *)
Lemma completed_courses_step_calling (s s' : frame_state) :
  rtc completed_courses_step s s' ->
  (exists n, s = Calling n) -> exists m, s' = Calling m.
Proof.
  induction 1 as [s | s t u Hstep _ IH]; [auto |].
  intros [n ->]. apply IH. inversion Hstep; subst. eauto.
Qed.

(** C10: [completed_courses] recurses into itself unconditionally.  For
    every stack budget the call ends in [RecursionError] and hands back no
    iterator, so no course is ever yielded; as a transition system, no
    activation reachable from the first call ever returns; in particular the
    code does not compute the filter of the transcript to its
    non-in-progress entries. *)
Theorem completed_courses_never_yields (self : RequirementContext) :
  (forall depth, completed_courses depth self = Raise RecursionError)
  /\ (forall s, rtc completed_courses_step (Calling 0) s -> exists n, s = Calling n)
  /\ (forall depth,
        completed_courses depth self
        <> Ok (List.filter (fun c => negb (is_in_progress c)) (transcript self))).
Proof.
  split; [intros depth; apply completed_courses_raises |].
  split.
  - intros s Hs. eapply completed_courses_step_calling; eauto.
  - intros depth. rewrite completed_courses_raises. discriminate.
Qed.

End ClaimArbitration.


(** * Properties of assertions *)

Module AssertionFacts.

Import Dp Dp.AssertionClause.





Section Evaluators.

Context {P : Type}.
Variable apply_operator : Q -> Operator -> Q -> outcome bool.
Variable reducer : Assertion P -> list CourseInstance -> outcome AppliedClauseResult.


(** C6: with [treat_in_progress_as_pass=false], when the comparison holds
    over the matched courses, some matched course is in progress, the
    comparison fails once the in-progress courses are taken out, and every
    in-progress matched course is enrolled this term, registered for a
    future term, or incomplete, the status is [PendingCurrent] or
    [PendingRegistered], and it is not [Done]. *)
Theorem evaluate_with_courses_depends_on_in_progress
    (assertion : Assertion P) (value_ : list CourseInstance)
    (r r_no_ip : AppliedClauseResult) :
  treat_in_progress_as_pass assertion = false ->
  reducer assertion value_ = Ok r ->
  apply_operator (value r) (operator assertion) (expected assertion) = Ok true ->
  existsb is_in_progress (courses r) = true ->
  reducer assertion (List.filter (fun c => negb (is_in_progress c)) value_)
  = Ok r_no_ip ->
  apply_operator (value r_no_ip) (operator assertion) (expected assertion)
  = Ok false ->
  Forall (fun c =>
            is_in_progress c = true ->
            is_in_progress_this_term c = true
            \/ is_in_progress_in_future c = true
            \/ is_incomplete c = true)
         (courses r) ->
  exists st,
    evaluate_with_courses apply_operator reducer assertion value_ = Ok (st, r)
    /\ (st = PendingCurrent \/ st = PendingRegistered)
    /\ st <> Done.
Proof.
  intros Htreat Hr Hop Hip Hr' Hop' Hkinds.
  assert (Hsome :
            existsb is_in_progress_this_term (courses r)
            || existsb is_in_progress_in_future (courses r)
            || existsb is_incomplete (courses r) = true).
  { apply existsb_exists in Hip as [c [Hin Hc]].
    rewrite Forall_forall in Hkinds.
    destruct (Hkinds c) as [H1 | [H1 | H1]]; auto.
    - apply list_elem_of_In, Hin.
    - replace (existsb is_in_progress_this_term (courses r)) with true; [done |].
      symmetry. apply existsb_exists. eauto.
    - replace (existsb is_in_progress_in_future (courses r)) with true;
        [by rewrite orb_true_r |].
      symmetry. apply existsb_exists. eauto.
    - replace (existsb is_incomplete (courses r)) with true;
        [by rewrite orb_true_r |].
      symmetry. apply existsb_exists. eauto. }
  unfold evaluate_with_courses.
  rewrite Hr. cbn [mbind outcome_bind bind]. rewrite Hop, Hip, Hr'.
  cbn [mbind outcome_bind bind]. rewrite Hop', Htreat. cbn [mbind outcome_bind bind orb].
  destruct (existsb is_in_progress_this_term (courses r)),
           (existsb is_in_progress_in_future (courses r)),
           (existsb is_incomplete (courses r));
    cbn in Hsome |- *; try discriminate; eauto 10.
Qed.

End Evaluators.



Lemma evaluate_with_courses_depends_on_in_progress_witness :
  exists st,
    evaluate_with_courses apply_operator_model course_reducer_model
      (from_args "count(courses)" 2 GreaterThanOrEqualTo false)
      [a_course "c1" false false false false; a_course "c2" true true false false]
    = Ok (st,
          {| value := 2;
             data := DataStrs ["c1"; "c2"];
             courses := [a_course "c1" false false false false;
                         a_course "c2" true true false false] |})
    /\ (st = PendingCurrent \/ st = PendingRegistered)
    /\ st <> Done.
Proof.
  apply (evaluate_with_courses_depends_on_in_progress apply_operator_model
           course_reducer_model
           (from_args "count(courses)" 2 GreaterThanOrEqualTo false)
           [a_course "c1" false false false false;
            a_course "c2" true true false false]
           {| value := 2;
              data := DataStrs ["c1"; "c2"];
              courses := [a_course "c1" false false false false;
                          a_course "c2" true true false false] |}
           {| value := 1;
              data := DataStrs ["c1"];
              courses := [a_course "c1" false false false false] |}).
  - reflexivity.
  - reflexivity.
  - reflexivity.
  - reflexivity.
  - reflexivity.
  - reflexivity.
  - repeat constructor; simpl; intros; auto; discriminate.
Defined.

Section Conditional.

Context {P Ctx : Type}.
Variable predicate_apply : P -> Clausable -> bool.
Variable apply_operator : Q -> Operator -> Q -> outcome bool.
Variable course_reducer : Assertion P -> list CourseInstance -> outcome AppliedClauseResult.
Variable area_reducer : Assertion P -> list AreaPointer -> outcome AppliedClauseResult.
Variable data_reducer : Assertion P -> list Clausable -> outcome AppliedClauseResult.
Variable get_insert_exceptions : Ctx -> list string -> list string.
Variable forced_course_by_clbid : Ctx -> string -> list string -> outcome CourseInstance.

(** C7, as the code has it: a conditional assertion whose condition has
    evaluated to false and which has no [when_false] branch is returned
    unchanged by [audit_and_resolve]; its status is [Empty], which is not a
    passing status, and its rank is [(0, 1)]. *)
Theorem conditional_without_else_unchanged
    (self : ConditionalAssertion P) (data_ : list Clausable) (ctx : Ctx) :
  result (condition self) = Some false ->
  when_false self = None ->
  conditional_audit_and_resolve predicate_apply apply_operator course_reducer
    area_reducer data_reducer get_insert_exceptions forced_course_by_clbid
    self data_ ctx
  = Ok self
  /\ conditional_status self = Empty
  /\ is_passing (conditional_status self) = false
  /\ conditional_rank self = Ok (ZERO_POINT_OH, ONE_POINT_OH).
Proof.
  intros Hcond Helse.
  unfold conditional_audit_and_resolve, conditional_status, conditional_rank.
  rewrite Hcond, Helse. repeat split.
Qed.

End Conditional.

Lemma conditional_without_else_unchanged_witness :
  conditional_audit_and_resolve predicate_apply_model apply_operator_model
    course_reducer_model area_reducer_model data_reducer_model
    get_insert_exceptions_model forced_course_by_clbid_model
    conditional_without_else [ClCourse (a_course "c1" false false false false)]
    empty_context_model
  = Ok conditional_without_else
  /\ conditional_status conditional_without_else = Empty
  /\ is_passing (conditional_status conditional_without_else) = false
  /\ conditional_rank conditional_without_else = Ok (ZERO_POINT_OH, ONE_POINT_OH).
Proof.
  apply (conditional_without_else_unchanged predicate_apply_model
           apply_operator_model course_reducer_model area_reducer_model
           data_reducer_model get_insert_exceptions_model
           forced_course_by_clbid_model conditional_without_else
           [ClCourse (a_course "c1" false false false false)] empty_context_model).
  - reflexivity.
  - reflexivity.
Defined.

(** C7 fails as stated: for [conditional_without_else], whose condition is
    false and which has no [when_false], what [audit_and_resolve] returns
    has a status outside [PassingStatuses] and a rank of 0 against a
    [max_rank] of 1. *)
Lemma conditional_without_else_not_passing :
  ~ (exists c rk,
        conditional_audit_and_resolve predicate_apply_model apply_operator_model
          course_reducer_model area_reducer_model data_reducer_model
          get_insert_exceptions_model forced_course_by_clbid_model
          conditional_without_else [] empty_context_model
        = Ok c
        /\ is_passing (conditional_status c) = true
        /\ conditional_rank c = Ok (rk, rk)).
Proof.
  intros [c [rk [Hc [Hpass _]]]].
  vm_compute in Hc. injection Hc as <-.
  vm_compute in Hpass. discriminate.
Qed.

(** C8: [waive] asks [attr.evolve] to set [status], which is not an
    attribute of [Assertion] (the attribute is [state]); the call raises
    [TypeError] for every assertion, so no waived assertion is returned. *)
Theorem waive_raises_TypeError (P : Type) (self : Assertion P) :
  waive self = Raise TypeError.
Proof. vm_compute. reflexivity. Qed.

End AssertionFacts.

(** * Properties of requirements *)

Module RequirementFacts.

Import Dp Dp.Requirement.

(** C9, as the code has it: an audited requirement that wraps a rule
    reports [PendingApproval], whatever the wrapped rule's own [status]
    would do (it is not called); a requirement with no rule reports what
    the inherited [Base.status] reports, whether or not it is audited. *)
Theorem audited_requirement_status
    (R : Type) (ops : Rule R)
    (Base_status : BaseRequirementRule R -> outcome ResultStatus)
    (self : BaseRequirementRule R) :
  (is_audited self = true ->
   forall body : R,
     result self = Some body -> status Base_status self = Ok PendingApproval)
  /\ (result self = None -> status Base_status self = Base_status self).
Proof.
  unfold status. split.
  - intros Haudited body ->. by rewrite Haudited.
  - by intros ->.
Qed.

Lemma audited_requirement_status_witness :
  (is_audited audited_requirement_with_body = true
   /\ status Base_status_model audited_requirement_with_body = Ok PendingApproval)
  /\ (result audited_requirement_without_body = None
      /\ status Base_status_model audited_requirement_without_body
         = Base_status_model audited_requirement_without_body).
Proof.
  split.
  - split; [reflexivity |].
    exact (proj1 (audited_requirement_status unit unit_Rule Base_status_model
                    audited_requirement_with_body) eq_refl tt eq_refl).
  - split; [reflexivity |].
    exact (proj2 (audited_requirement_status unit unit_Rule Base_status_model
                    audited_requirement_without_body) eq_refl).
Defined.

(** C9 fails as stated: an audited requirement without a result body does
    not report [PendingApproval]; it reports the inherited status, which is
    [Empty] for a rule that has not been waived. *)
Lemma audited_requirement_without_body_is_empty :
  is_audited audited_requirement_without_body = true
  /\ status Base_status_model audited_requirement_without_body = Ok Empty
  /\ status Base_status_model audited_requirement_without_body
     <> Ok PendingApproval.
Proof. repeat split. discriminate. Qed.

End RequirementFacts.

(** * Further properties of the requirement context *)

Module ContextFacts.

Import Degreepath.

Lemma with_claims_claims (self : RequirementContext) c :
  with_claims self (claims self) = self /\ claims (with_claims self c) = c.
Proof. by destruct self. Qed.

Lemma with_claims_twice (self : RequirementContext) c1 c2 :
  with_claims (with_claims self c1) c2 = with_claims self c2.
Proof. reflexivity. Qed.

Lemma getitem_fst (d : gmap string (list Claim)) k :
  (defaultdict_getitem d k).1 = default [] (d !! k).
Proof. unfold defaultdict_getitem. by destruct (d !! k). Qed.

Lemma getitem_nonempty_snd (d : gmap string (list Claim)) k :
  (defaultdict_getitem d k).1 <> [] -> (defaultdict_getitem d k).2 = d.
Proof. unfold defaultdict_getitem. by destruct (d !! k). Qed.

(** Reading an entry and then adding to it stores the old entry plus the
    claim, whether or not the read had to create the key. *)
Lemma claims_add_getitem (d : gmap string (list Claim)) k c :
  claims_add (defaultdict_getitem d k).2 k c
  = <[k := set_add c (default [] (d !! k))]> d.
Proof.
  unfold claims_add, defaultdict_getitem.
  destruct (d !! k) as [v|] eqn:E; simpl.
  - by rewrite E.
  - rewrite lookup_insert_eq. simpl. by rewrite insert_insert_eq.
Qed.

(** The three ways a call can end. *)
Lemma make_claim_shape
    (is_subset : SingleClause -> Clause -> bool) (self self' : RequirementContext)
    (course : CourseInstance) (path : list string) (arg : ClauseArg)
    (allow_claimed : bool) (a : ClaimAttempt) :
  make_claim is_subset self course path arg allow_claimed = Ok (a, self') ->
  (claim_clbid (claim a) = clbid course
   /\ claim_crsid (claim a) = crsid course
   /\ claimant_path (claim a) = path)
  /\ ((did_fail a = false /\ conflict_with a = []
       /\ lets_through arg allow_claimed = true /\ self' = self)
      \/ (did_fail a = false /\ conflict_with a = []
          /\ lets_through arg allow_claimed = false
          /\ self' = with_claims self
                       (<[clbid course :=
                            set_add (claim a) (prior_claims self (clbid course))]>
                          (claims self)))
      \/ (did_fail a = true
          /\ conflict_with a = prior_claims self (clbid course)
          /\ prior_claims self (clbid course) <> []
          /\ lets_through arg allow_claimed = false /\ self' = self)).
Proof.
  unfold make_claim, lets_through, prior_claims.
  pose proof (claims_add_getitem (claims self) (clbid course)) as Hadd.
  pose proof (getitem_fst (claims self) (clbid course)) as Hfst.
  pose proof (getitem_nonempty_snd (claims self) (clbid course)) as Hsnd.
  destruct arg as [ | items | c | r]; cbn [mbind outcome_bind bind rule_of from_option];
    try discriminate;
    (destruct (allow_claimed || _) eqn:Hallow;
     [intros [= <- <-]; split; [done | left; done] |]);
    (destruct (defaultdict_getitem (claims self) (clbid course)) as [prior d'] eqn:E);
    cbn [fst snd] in *; subst prior;
    (destruct (default [] (claims self !! clbid course)) as [| p ps] eqn:Hprior;
     cbn [is_empty negb];
     [ intros [= <- <-]; split; [done |]; right; left;
       cbn [claims with_claims claim]; rewrite Hadd; done
     | rewrite (Hsnd ltac:(discriminate)) in *; clear Hsnd ]);
    repeat match goal with
           | |- context [if is_empty ?l then _ else _] => destruct (is_empty l)
           | |- context [match ?o with Some _ => _ | None => _ end] => destruct o
           end;
    intros [= <- <-]; (split; [done |]);
    first [ right; right; cbn;
            rewrite (proj1 (with_claims_claims self (claims self)));
            repeat split; done
          | right; left; cbn [claims with_claims claim did_fail conflict_with];
            rewrite Hadd; done ].
Qed.

Lemma set_add_keeps (x c : Claim) (s : list Claim) : In c s -> In c (set_add x s).
Proof.
  unfold set_add. destruct (existsb (Claim_eqb x) s); [auto |].
  intros H. apply in_or_app. auto.
Qed.

Lemma list_eqb_refl {A : Type} (eqb : A -> A -> bool) (l : list A) :
  (forall x, eqb x x = true) -> list_eqb eqb l l = true.
Proof.
  intros Hrefl. induction l as [| x xs IH]; [reflexivity |].
  simpl. by rewrite Hrefl, IH.
Qed.

Lemma Scalar_eqb_refl (x : Scalar) : Scalar_eqb x x = true.
Proof.
  destruct x; simpl.
  - apply String.eqb_refl.
  - apply Qeq_bool_iff. reflexivity.
  - by destruct b.
Qed.

Lemma Expected_eqb_refl (x : Expected) : Expected_eqb x x = true.
Proof.
  destruct x; simpl; [apply Scalar_eqb_refl |].
  apply list_eqb_refl, Scalar_eqb_refl.
Qed.

Lemma SingleClause_eqb_refl (c : SingleClause) : SingleClause_eqb c c = true.
Proof.
  unfold SingleClause_eqb.
  rewrite String.eqb_refl, !Expected_eqb_refl.
  by destruct (operator c), (at_most c), (treat_in_progress_as_pass c).
Qed.

Lemma Clause_eqb_refl : forall c : Clause, Clause_eqb c c = true.
Proof.
  fix IH 1. intros [s | cs | cs].
  - apply SingleClause_eqb_refl.
  - simpl. induction cs as [| x xs IHxs]; [reflexivity |].
    rewrite (IH x). exact IHxs.
  - simpl. induction cs as [| x xs IHxs]; [reflexivity |].
    rewrite (IH x). exact IHxs.
Qed.

Lemma Claim_eqb_refl (c : Claim) : Claim_eqb c c = true.
Proof.
  unfold Claim_eqb.
  rewrite !String.eqb_refl, Clause_eqb_refl.
  rewrite (list_eqb_refl String.eqb); [reflexivity | apply String.eqb_refl].
Qed.

Lemma set_add_has (x : Claim) (s : list Claim) :
  existsb (Claim_eqb x) (set_add x s) = true.
Proof.
  unfold set_add. destruct (existsb (Claim_eqb x) s) eqn:E; [exact E |].
  rewrite existsb_app. simpl. by rewrite Claim_eqb_refl, orb_true_r.
Qed.

(** X1: whatever its outcome, [make_claim] changes nothing but the ledger
    entry of the course it is called for: the entries of all other [clbid]s
    and the other attributes of the context are as before. *)
Theorem make_claim_touches_one_entry
    (is_subset : SingleClause -> Clause -> bool) (self self' : RequirementContext)
    (course : CourseInstance) (path : list string) (arg : ClauseArg)
    (allow_claimed : bool) (a : ClaimAttempt) :
  make_claim is_subset self course path arg allow_claimed = Ok (a, self') ->
  (forall k, k <> clbid course -> claims self' !! k = claims self !! k)
  /\ transcript_ self' = transcript_ self
  /\ course_lookup_map_ self' = course_lookup_map_ self
  /\ clbid_lookup_map_ self' = clbid_lookup_map_ self
  /\ areas self' = areas self
  /\ multicountable self' = multicountable self
  /\ exceptions self' = exceptions self.
Proof.
  intros H. apply make_claim_shape in H as [_ [H | [H | H]]];
    destruct H as (_ & _ & _ & ->) || destruct H as (_ & _ & _ & _ & ->);
    repeat split; try done.
  intros k Hk. cbn. by rewrite lookup_insert_ne.
Qed.

(** X2: [make_claim] never removes a claim: every claim in the ledger
    before the call, under any [clbid], is still there after it. *)
Theorem make_claim_keeps_prior_claims
    (is_subset : SingleClause -> Clause -> bool) (self self' : RequirementContext)
    (course : CourseInstance) (path : list string) (arg : ClauseArg)
    (allow_claimed : bool) (a : ClaimAttempt) :
  make_claim is_subset self course path arg allow_claimed = Ok (a, self') ->
  forall k c, In c (prior_claims self k) -> In c (prior_claims self' k).
Proof.
  intros H k c Hc. apply make_claim_shape in H as [_ [H | [H | H]]];
    destruct H as (_ & _ & _ & ->) || destruct H as (_ & _ & _ & _ & ->);
    try done.
  unfold prior_claims in *. cbn.
  destruct (decide (clbid course = k)) as [<- | Hne].
  - rewrite lookup_insert_eq. cbn. by apply set_add_keeps.
  - by rewrite lookup_insert_ne.
Qed.

(** X3: an attempt reports conflicts exactly when it failed, and the
    conflicts of a failed attempt are all the claims the course already had. *)
Theorem make_claim_conflict_iff_failed
    (is_subset : SingleClause -> Clause -> bool) (self self' : RequirementContext)
    (course : CourseInstance) (path : list string) (arg : ClauseArg)
    (allow_claimed : bool) (a : ClaimAttempt) :
  make_claim is_subset self course path arg allow_claimed = Ok (a, self') ->
  (did_fail a = true <-> conflict_with a <> [])
  /\ (did_fail a = true -> conflict_with a = prior_claims self (clbid course)).
Proof.
  intros H. apply make_claim_shape in H as [_ [H | [H | H]]].
  - destruct H as (-> & -> & _). split; [split |]; done.
  - destruct H as (-> & -> & _). split; [split |]; done.
  - destruct H as (-> & -> & Hne & _). split; [split |]; done.
Qed.

(** X4: a claim that succeeds without being let through by
    [allow_claimed] is recorded: the entry of the course is the old entry
    with the claim added as to a set, and it contains the claim. *)
Theorem make_claim_success_is_recorded
    (is_subset : SingleClause -> Clause -> bool) (self self' : RequirementContext)
    (course : CourseInstance) (path : list string) (arg : ClauseArg)
    (allow_claimed : bool) (a : ClaimAttempt) :
  make_claim is_subset self course path arg allow_claimed = Ok (a, self') ->
  lets_through arg allow_claimed = false ->
  did_fail a = false ->
  prior_claims self' (clbid course)
  = set_add (claim a) (prior_claims self (clbid course))
  /\ existsb (Claim_eqb (claim a)) (prior_claims self' (clbid course)) = true.
Proof.
  intros H Hallow Hok. apply make_claim_shape in H as [_ [H | [H | H]]].
  - destruct H as (_ & _ & Ht & _). congruence.
  - destruct H as (_ & _ & _ & ->).
    match goal with
    | |- ?l = ?r /\ _ =>
        assert (E : l = r)
          by (unfold prior_claims; cbn; by rewrite lookup_insert_eq)
    end.
    split; [exact E | rewrite E; apply set_add_has].
  - destruct H as (Hf & _). congruence.
Qed.

Lemma filter_none {A : Type} (p : A -> bool) (l : list A) :
  forallb (fun x => negb (p x)) l = true -> List.filter p l = [].
Proof.
  induction l as [| x xs IH]; [reflexivity |]. simpl.
  intros [Hx Hxs]%andb_true_iff. apply negb_true_iff in Hx.
  rewrite Hx. auto.
Qed.

(** With claims on the course and a call that is not let through, what
    is left of [make_claim] depends on the clause only. *)
Ltac denied_setup Hclause Hallow Hprior :=
  unfold prior_claims, lets_through in *;
  match goal with
  | |- make_claim _ ?self ?course _ ?arg _ = _ =>
      pose proof (getitem_fst (claims self) (clbid course)) as Hfst';
      pose proof (getitem_nonempty_snd (claims self) (clbid course)) as Hsnd;
      unfold make_claim;
      destruct arg as [ | items | c | r]; cbn [clause_of_arg] in Hclause;
      try discriminate; injection Hclause as <-;
      cbn [mbind outcome_bind bind rule_of from_option] in *;
      rewrite Hallow;
      destruct (defaultdict_getitem (claims self) (clbid course)) as [prior d'];
      cbn [fst snd] in *; subst prior;
      rewrite Hsnd by done;
      (destruct (default [] (claims self !! clbid course)) as [| p ps] eqn:E;
       [done |]);
      cbn [is_empty negb multicountable with_claims];
      rewrite (proj1 (with_claims_claims self (claims self)))
  end.

(** X6: a course that has a claim can only be claimed again through the
    multicountable policy.  For a call that is not let through by
    [allow_claimed] (neither the keyword nor the flag of a course rule passed
    as [clause]): when no clause of any clauseset is within the new clause
    (the one passed, or the one the course rule is coerced to), in
    particular when the policy is empty, the claim is denied with all prior
    claims as conflicts, and the context is untouched. *)
Theorem make_claim_denied_without_clauseset
    (is_subset : SingleClause -> Clause -> bool) (self : RequirementContext)
    (course : CourseInstance) (path : list string) (arg : ClauseArg)
    (allow_claimed : bool) (clause : Clause) :
  clause_of_arg arg = Some clause ->
  lets_through arg allow_claimed = false ->
  prior_claims self (clbid course) <> [] ->
  forallb (fun clauseset => negb (existsb (fun c => is_subset c clause) clauseset))
          (multicountable self) = true ->
  make_claim is_subset self course path arg allow_claimed
  = Ok (conflict (claim_of course path clause) (prior_claims self (clbid course)),
        self).
Proof.
  intros Hclause Hallow Hprior Hnone.
  denied_setup Hclause Hallow Hprior;
    rewrite filter_none by exact Hnone; reflexivity.
Qed.

(** X7: for a call that is not let through by [allow_claimed] (neither the
    keyword nor the flag of a course rule passed as [clause]): when every
    clause of every clauseset is already within the clause of some prior
    claim, nothing is left to claim under, and the claim is denied with all
    prior claims as conflicts; the context is untouched. *)
Theorem make_claim_denied_when_exhausted
    (is_subset : SingleClause -> Clause -> bool) (self : RequirementContext)
    (course : CourseInstance) (path : list string) (arg : ClauseArg)
    (allow_claimed : bool) (clause : Clause) :
  clause_of_arg arg = Some clause ->
  lets_through arg allow_claimed = false ->
  prior_claims self (clbid course) <> [] ->
  Forall (fun clauseset =>
            Forall (fun c =>
                      existsb (fun prior_clause => is_subset c prior_clause)
                              (map value (prior_claims self (clbid course))) = true)
                   clauseset)
         (multicountable self) ->
  make_claim is_subset self course path arg allow_claimed
  = Ok (conflict (claim_of course path clause) (prior_claims self (clbid course)),
        self).
Proof.
  intros Hclause Hallow Hprior Hused.
  denied_setup Hclause Hallow Hprior;
    (destruct (is_empty _); [reflexivity |]);
    (destruct (List.find _ _) as [cs |] eqn:Hfind; [| reflexivity]);
    apply find_some in Hfind as [Hin _]; apply filter_In in Hin as [Hin _];
    rewrite Forall_forall in Hused;
    specialize (Hused cs (proj2 (list_elem_of_In _ _) Hin));
    (rewrite filter_none; [reflexivity |]);
    apply forallb_forall; intros c0 Hc0; rewrite negb_involutive;
    rewrite Forall_forall in Hused; apply Hused; by apply list_elem_of_In.
Qed.

(** X8: a claim that succeeds on a course that already has claims, and is
    not let through by [allow_claimed], was admitted by a clauseset of the
    policy that covers every prior clause and the new one and that still has
    a clause within no prior clause. *)
Theorem make_claim_second_claim_needs_clauseset
    (is_subset : SingleClause -> Clause -> bool) (self self' : RequirementContext)
    (course : CourseInstance) (path : list string) (arg : ClauseArg)
    (allow_claimed : bool) (a : ClaimAttempt) :
  make_claim is_subset self course path arg allow_claimed = Ok (a, self') ->
  lets_through arg allow_claimed = false ->
  did_fail a = false ->
  prior_claims self (clbid course) <> [] ->
  exists clauseset,
    In clauseset (multicountable self)
    /\ forallb (fun p_clause => existsb (fun c => is_subset c p_clause) clauseset)
               (map value (prior_claims self (clbid course)) ++ [value (claim a)])
       = true
    /\ exists c,
        In c clauseset
        /\ existsb (fun prior_clause => is_subset c prior_clause)
                   (map value (prior_claims self (clbid course))) = false.
Proof.
  unfold prior_claims, lets_through. intros H Hallow Hok Hprior.
  pose proof (getitem_fst (claims self) (clbid course)) as Hfst.
  assert (Hsnd := getitem_nonempty_snd (claims self) (clbid course)).
  unfold make_claim in H.
  destruct arg as [ | items | c | r];
    cbn [mbind outcome_bind bind rule_of from_option] in *; try discriminate;
    rewrite Hallow in H;
    (destruct (defaultdict_getitem (claims self) (clbid course)) as [prior d']);
    cbn [fst snd] in *; subst prior;
    (destruct (default [] (claims self !! clbid course)) as [| p ps] eqn:E; [done |]);
    cbn [is_empty negb multicountable with_claims] in H;
    (destruct (is_empty _); [injection H as <- <-; discriminate |]);
    (destruct (List.find _ _) as [cs |] eqn:Hfind;
     [| injection H as <- <-; discriminate]);
    apply find_some in Hfind as [Hin Hcover]; apply filter_In in Hin as [Hin _];
    (destruct (List.filter _ cs) as [| c0 rest] eqn:Hav;
     [injection H as <- <-; discriminate |]);
    injection H as <- <-; exists cs; (split; [exact Hin |]); (split; [exact Hcover |]);
    exists c0;
    (assert (Hc0 : In c0 (List.filter
                           (fun c => negb (existsb (fun prior_clause => is_subset c prior_clause)
                                                   (map value (p :: ps)))) cs))
       by (rewrite Hav; left; reflexivity));
    apply filter_In in Hc0 as [Hc0 Hneg]; apply negb_true_iff in Hneg; auto.
Qed.

Lemma dict_of_snoc {V : Type} (items : list (string * V)) (kv : string * V) :
  dict_of (items ++ [kv]) = <[kv.1 := kv.2]> (dict_of items).
Proof. unfold dict_of. by rewrite fold_left_app. Qed.

Lemma dict_of_lookup_Some {V : Type} (items : list (string * V)) k v :
  dict_of items !! k = Some v -> In (k, v) items.
Proof.
  induction items as [| [k' v'] items IH] using rev_ind; [done |].
  rewrite dict_of_snoc. cbn. intros H. apply in_or_app.
  destruct (decide (k' = k)) as [-> | Hne].
  - rewrite lookup_insert_eq in H. injection H as ->. right. by left.
  - rewrite lookup_insert_ne in H by done. left. auto.
Qed.

Lemma dict_of_lookup_is_Some {V : Type} (items : list (string * V)) k :
  is_Some (dict_of items !! k) <-> exists v, In (k, v) items.
Proof.
  split.
  - intros [v Hv]. exists v. by apply dict_of_lookup_Some.
  - intros [v Hv]. induction items as [| [k' v'] items IH] using rev_ind; [done |].
    rewrite dict_of_snoc. cbn.
    destruct (decide (k' = k)) as [-> | Hne].
    + rewrite lookup_insert_eq. eauto.
    + rewrite lookup_insert_ne by done. apply IH.
      apply in_app_or in Hv as [Hv | [Hv | []]]; [done | congruence].
Qed.

Lemma dict_of_lookup_NoDup {V : Type} (items : list (string * V)) k v :
  NoDup (map fst items) -> In (k, v) items -> dict_of items !! k = Some v.
Proof.
  intros Hnd Hin.
  destruct (proj2 (dict_of_lookup_is_Some items k) (ex_intro _ v Hin)) as [v' Hv'].
  rewrite Hv'. f_equal.
  apply dict_of_lookup_Some in Hv'.
  clear -Hnd Hin Hv'. induction items as [| [k0 v0] items IH]; [done |].
  cbn in Hnd. apply NoDup_cons in Hnd as [Hk0 Hnd].
  destruct Hin as [[= -> ->] | Hin], Hv' as [[= ->] | Hv']; auto.
  - exfalso. apply Hk0. apply list_elem_of_In.
    change k with (fst (k, v')). by apply in_map.
  - subst. exfalso. apply Hk0. apply list_elem_of_In.
    change k with (fst (k, v)). by apply in_map.
Qed.

Section TranscriptFacts.

Variable course_name : CourseInstance -> string.
Variable course_shorthand : CourseInstance -> string.

(** X9: after [with_transcript] on a transcript whose [clbid]s are
    distinct, looking a course of the transcript up by its [clbid] gives
    that course back, and [forced_course_by_clbid] returns it without
    raising. *)
Theorem find_course_by_clbid_roundtrip
    (self : RequirementContext) (t : list CourseInstance) (c : CourseInstance) :
  NoDup (map clbid t) ->
  In c t ->
  find_course_by_clbid (with_transcript course_name course_shorthand self t) (clbid c) = Some c
  /\ forced_course_by_clbid (with_transcript course_name course_shorthand self t) (clbid c) = Ok c.
Proof.
  intros Hnd Hin.
  assert (H : find_course_by_clbid (with_transcript course_name course_shorthand self t) (clbid c) = Some c).
  { unfold find_course_by_clbid. cbn.
    apply dict_of_lookup_NoDup.
    - by rewrite map_map.
    - apply in_map_iff. eauto. }
  split; [exact H |]. unfold forced_course_by_clbid. by rewrite H.
Qed.

(** X10: after [with_transcript], [forced_course_by_clbid] raises exactly
    when no course of the transcript has the [clbid]; what it returns
    otherwise is a course of the transcript with that [clbid]. *)
Theorem forced_course_by_clbid_raises_iff_absent
    (self : RequirementContext) (t : list CourseInstance) (id : string) :
  ((exists e, forced_course_by_clbid (with_transcript course_name course_shorthand self t) id = Raise e)
   <-> forall c, In c t -> clbid c <> id)
  /\ (forall c, forced_course_by_clbid (with_transcript course_name course_shorthand self t) id = Ok c ->
                In c t /\ clbid c = id).
Proof.
  unfold forced_course_by_clbid, find_course_by_clbid. cbn.
  destruct (dict_of _ !! id) as [m |] eqn:E.
  - apply dict_of_lookup_Some in E. apply in_map_iff in E as [c [[= <- <-] Hin]].
    split.
    + split; [intros [e He]; discriminate |].
      intros Habs. exfalso. by apply (Habs c).
    + intros c' [= <-]. auto.
  - split; [| discriminate].
    split; [| eauto].
    intros _ c Hin Hid.
    assert (Hs : is_Some (dict_of (map (fun c => (clbid c, c)) t) !! id)).
    { apply dict_of_lookup_is_Some. exists c. apply in_map_iff. exists c. by subst. }
    rewrite E in Hs. by destruct Hs.
Qed.

(** X11: after [with_transcript], the dictionary lookup and the scan of
    the transcript agree: [has_course] holds of a name exactly when
    [find_all_courses] yields some course for it. *)
Theorem has_course_iff_find_all_courses
    (self : RequirementContext) (t : list CourseInstance) (name : string) :
  has_course (with_transcript course_name course_shorthand self t) name = true
  <-> find_all_courses course_name course_shorthand (with_transcript course_name course_shorthand self t) name <> [].
Proof.
  unfold has_course, find_course, find_all_courses, transcript, with_transcript. cbn.
  set (A := dict_of (map (fun c => (course_name c, c)) t)).
  set (B := dict_of (map (fun c => (course_shorthand c, c)) t)).
  assert (Hmap : is_Some ((A ∪ B) !! name)
                 <-> exists c, In c t /\ (course_shorthand c = name \/ course_name c = name)).
  { rewrite lookup_union_is_Some. unfold A, B. rewrite !dict_of_lookup_is_Some. split.
    - intros [[v Hv] | [v Hv]]; apply in_map_iff in Hv as [c [[= <- <-] Hin]]; eauto.
    - intros [c [Hin [<- | <-]]]; [right | left]; exists c; apply in_map_iff; eauto. }
  split.
  - intros H. destruct ((A ∪ B) !! name) as [c0 |] eqn:E; [| discriminate].
    destruct (proj1 Hmap (mk_is_Some _ _ eq_refl)) as [c [Hin Hc]].
    intros Hnil.
    assert (Hf : In c (List.filter
                         (fun crs => String.eqb (course_shorthand crs) name
                                     || String.eqb (course_name crs) name) t)).
    { apply filter_In. split; [done |].
      destruct Hc as [<- | <-]; rewrite String.eqb_refl; [done | by rewrite orb_true_r]. }
    rewrite Hnil in Hf. destruct Hf.
  - intros H.
    destruct (List.filter _ t) as [| c rest] eqn:Hf; [done |].
    assert (Hc : In c (List.filter
                         (fun crs => String.eqb (course_shorthand crs) name
                                     || String.eqb (course_name crs) name) t))
      by (rewrite Hf; by left).
    apply filter_In in Hc as [Hin Hc]. apply orb_true_iff in Hc.
    assert (Hs : is_Some ((A ∪ B) !! name)).
    { apply Hmap. exists c. split; [done |].
      destruct Hc as [Hc | Hc]; apply String.eqb_eq in Hc; auto. }
    destruct Hs as [x ->]. reflexivity.
Qed.

(** X12: after [with_transcript], [find_course] returns a course of the
    transcript, and one found through its shorthand only when no course of
    the transcript has the name as its full name. *)
Theorem find_course_prefers_full_names
    (self : RequirementContext) (t : list CourseInstance) (name : string)
    (c : CourseInstance) :
  find_course (with_transcript course_name course_shorthand self t) name = Some c ->
  In c t
  /\ (course_name c = name
      \/ (course_shorthand c = name /\ forall c', In c' t -> course_name c' <> name)).
Proof.
  unfold find_course. cbn. intros H.
  apply lookup_union_Some_raw in H as [H | [Hnone H]].
  - apply dict_of_lookup_Some in H. apply in_map_iff in H as [c0 [[= <- <-] Hin]]. auto.
  - apply dict_of_lookup_Some in H. apply in_map_iff in H as [c0 [[= <- <-] Hin]].
    split; [done |]. right. split; [done |].
    intros c' Hin' Hname.
    assert (Hs : is_Some (dict_of (map (fun c => (course_name c, c)) t)
                            !! course_shorthand c0)).
    { apply dict_of_lookup_is_Some. exists c'. apply in_map_iff. exists c'. by rewrite Hname. }
    rewrite Hnone in Hs. by destruct Hs.
Qed.

End TranscriptFacts.

(** X13: [find_other_courses] yields exactly the transcript courses of
    type AP, IB or CAL whose subjects contain the code given for that type;
    called with no code at all it yields nothing. *)
Theorem find_other_courses_only_exam_credit
    (self : RequirementContext) (ap ib cal : option string) (c : CourseInstance) :
  (In c (find_other_courses self ap ib cal)
   <-> In c (transcript self)
       /\ ((course_type c = AP /\ in_subject ap c = true)
           \/ (course_type c = IB /\ in_subject ib c = true)
           \/ (course_type c = CAL /\ in_subject cal c = true)))
  /\ find_other_courses self None None None = [].
Proof.
  split.
  - unfold find_other_courses. rewrite filter_In.
    destruct (course_type c); split; intros [Hin H]; split; auto;
      try discriminate;
      try (destruct H as [[? ?] | [[? ?] | [? ?]]]; congruence).
  - unfold find_other_courses.
    induction (transcript self) as [| x xs IH]; [reflexivity |].
    cbn. by destruct (course_type x).
Qed.

(** X14: a course rule is equivalent to the clause [make_claim] coerces
    it to; and it is equivalent only to clauses on the key [course] whose
    operator is EQ or IN. *)
Theorem is_equivalent_to_clause_of_own_clause (r : BaseCourseRule) :
  clause_of_rule r = Single (single_of_rule r)
  /\ is_equivalent_to_clause r (single_of_rule r) = Ok true
  /\ (forall c, is_equivalent_to_clause r c = Ok true ->
                key c = "course"
                /\ (operator c = EqualTo \/ operator c = In_)).
Proof.
  split; [reflexivity |]. split.
  - unfold is_equivalent_to_clause. cbn. by rewrite String.eqb_refl.
  - intros c. unfold is_equivalent_to_clause.
    destruct (String.eqb (key c) "course") eqn:Hk; cbn; [| discriminate].
    apply String.eqb_eq in Hk.
    destruct (operator c); try discriminate; auto.
Qed.

(** Three concrete runs under the one-pair policy and under no policy. *)
Lemma claimed_once_second_run :
  make_claim SingleClause_is_subset claimed_once scenario_D_course
    ["query-b"] (ArgClause post1800) false
  = Ok (success (claim_of scenario_D_course ["query-b"] post1800), claimed_twice).
Proof. vm_compute. reflexivity. Qed.

Lemma claimed_twice_third_run :
  make_claim SingleClause_is_subset claimed_twice scenario_D_course
    ["query-c"] (ArgClause elective) false
  = Ok (conflict (claim_of scenario_D_course ["query-c"] elective)
                 (prior_claims claimed_twice "c1"),
        claimed_twice).
Proof. vm_compute. reflexivity. Qed.

Lemma make_claim_touches_one_entry_witness :
  make_claim SingleClause_is_subset claimed_once scenario_D_course
    ["query-b"] (ArgClause post1800) false
  = Ok (success (claim_of scenario_D_course ["query-b"] post1800), claimed_twice)
  /\ (forall k, k <> clbid scenario_D_course ->
                claims claimed_twice !! k = claims claimed_once !! k)
  /\ multicountable claimed_twice = multicountable claimed_once.
Proof.
  split; [exact claimed_once_second_run |].
  pose proof (make_claim_touches_one_entry SingleClause_is_subset claimed_once
                claimed_twice scenario_D_course ["query-b"] (ArgClause post1800)
                false _ claimed_once_second_run) as H.
  split; [apply H | apply H].
Defined.

Lemma make_claim_keeps_prior_claims_witness :
  make_claim SingleClause_is_subset claimed_once scenario_D_course
    ["query-b"] (ArgClause post1800) false
  = Ok (success (claim_of scenario_D_course ["query-b"] post1800), claimed_twice)
  /\ forall k c, In c (prior_claims claimed_once k) -> In c (prior_claims claimed_twice k).
Proof.
  split; [exact claimed_once_second_run |].
  exact (make_claim_keeps_prior_claims SingleClause_is_subset claimed_once
           claimed_twice scenario_D_course ["query-b"] (ArgClause post1800)
           false _ claimed_once_second_run).
Defined.

Lemma make_claim_conflict_iff_failed_witness :
  make_claim SingleClause_is_subset claimed_twice scenario_D_course
    ["query-c"] (ArgClause elective) false
  = Ok (conflict (claim_of scenario_D_course ["query-c"] elective)
                 (prior_claims claimed_twice "c1"),
        claimed_twice)
  /\ (did_fail (conflict (claim_of scenario_D_course ["query-c"] elective)
                         (prior_claims claimed_twice "c1")) = true
      <-> conflict_with (conflict (claim_of scenario_D_course ["query-c"] elective)
                                  (prior_claims claimed_twice "c1")) <> []).
Proof.
  split; [exact claimed_twice_third_run |].
  exact (proj1 (make_claim_conflict_iff_failed SingleClause_is_subset claimed_twice
                  claimed_twice scenario_D_course ["query-c"] (ArgClause elective)
                  false _ claimed_twice_third_run)).
Defined.

Lemma make_claim_success_is_recorded_witness :
  make_claim SingleClause_is_subset claimed_once scenario_D_course
    ["query-b"] (ArgClause post1800) false
  = Ok (success (claim_of scenario_D_course ["query-b"] post1800), claimed_twice)
  /\ lets_through (ArgClause post1800) false = false
  /\ existsb (Claim_eqb (claim_of scenario_D_course ["query-b"] post1800))
             (prior_claims claimed_twice (clbid scenario_D_course)) = true.
Proof.
  split; [exact claimed_once_second_run |].
  split; [reflexivity |].
  exact (proj2 (make_claim_success_is_recorded SingleClause_is_subset claimed_once
                  claimed_twice scenario_D_course ["query-b"] (ArgClause post1800)
                  false _ claimed_once_second_run eq_refl eq_refl)).
Defined.

Lemma make_claim_denied_without_clauseset_witness :
  (clause_of_arg (ArgRule hist_210_rule) = Some (clause_of_rule hist_210_rule)
   /\ lets_through (ArgRule hist_210_rule) false = false
   /\ prior_claims claimed_without_policy (clbid scenario_D_course) <> [])
  /\ make_claim SingleClause_is_subset claimed_without_policy scenario_D_course
       ["course-rule"] (ArgRule hist_210_rule) false
     = Ok (conflict (claim_of scenario_D_course ["course-rule"]
                       (clause_of_rule hist_210_rule))
                    (prior_claims claimed_without_policy (clbid scenario_D_course)),
           claimed_without_policy).
Proof.
  assert (H : prior_claims claimed_without_policy (clbid scenario_D_course) <> [])
    by (vm_compute; discriminate).
  split; [repeat split; exact H |].
  apply (make_claim_denied_without_clauseset SingleClause_is_subset
           claimed_without_policy scenario_D_course ["course-rule"]
           (ArgRule hist_210_rule) false (clause_of_rule hist_210_rule)
           eq_refl eq_refl H).
  reflexivity.
Defined.

Lemma make_claim_denied_when_exhausted_witness :
  (clause_of_arg (ArgClause elective) = Some elective
   /\ lets_through (ArgClause elective) false = false
   /\ prior_claims claimed_twice (clbid scenario_D_course) <> [])
  /\ make_claim SingleClause_is_subset claimed_twice scenario_D_course
       ["query-c"] (ArgClause elective) false
     = Ok (conflict (claim_of scenario_D_course ["query-c"] elective)
                    (prior_claims claimed_twice (clbid scenario_D_course)),
           claimed_twice).
Proof.
  assert (H : prior_claims claimed_twice (clbid scenario_D_course) <> [])
    by (vm_compute; discriminate).
  split; [repeat split; exact H |].
  apply (make_claim_denied_when_exhausted SingleClause_is_subset
           claimed_twice scenario_D_course ["query-c"] (ArgClause elective) false
           elective eq_refl eq_refl H).
  repeat constructor.
Defined.

Lemma make_claim_second_claim_needs_clauseset_witness :
  make_claim SingleClause_is_subset claimed_once scenario_D_course
    ["query-b"] (ArgClause post1800) false
  = Ok (success (claim_of scenario_D_course ["query-b"] post1800), claimed_twice)
  /\ prior_claims claimed_once (clbid scenario_D_course) <> []
  /\ exists clauseset, In clauseset (multicountable claimed_once).
Proof.
  split; [exact claimed_once_second_run |].
  assert (H : prior_claims claimed_once (clbid scenario_D_course) <> [])
    by (vm_compute; discriminate).
  split; [exact H |].
  destruct (make_claim_second_claim_needs_clauseset SingleClause_is_subset
              claimed_once claimed_twice scenario_D_course ["query-b"]
              (ArgClause post1800) false _ claimed_once_second_run
              eq_refl eq_refl H) as [cs [Hin _]].
  exists cs. exact Hin.
Defined.

Lemma find_course_by_clbid_roundtrip_witness :
  NoDup (map clbid two_courses)
  /\ In scenario_D_course two_courses
  /\ find_course_by_clbid (with_transcript course course empty_context two_courses)
       (clbid scenario_D_course)
     = Some scenario_D_course.
Proof.
  assert (Hnd : NoDup (map clbid two_courses))
    by (apply (bool_decide_unpack _); vm_compute; exact I).
  assert (Hin : In scenario_D_course two_courses) by (left; reflexivity).
  split; [exact Hnd |]. split; [exact Hin |].
  exact (proj1 (find_course_by_clbid_roundtrip course course empty_context
                  two_courses scenario_D_course Hnd Hin)).
Defined.

Lemma find_course_prefers_full_names_witness :
  find_course (with_transcript course course empty_context two_courses) "HIST 210"
  = Some scenario_D_course
  /\ In scenario_D_course two_courses.
Proof.
  assert (H : find_course (with_transcript course course empty_context two_courses)
                "HIST 210" = Some scenario_D_course)
    by (vm_compute; reflexivity).
  split; [exact H |].
  exact (proj1 (find_course_prefers_full_names course course empty_context
                  two_courses "HIST 210" scenario_D_course H)).
Defined.

End ContextFacts.

(** * Further properties of assertions and predicate expressions *)

Module AssertionMore.

Import Dp Dp.AssertionClause.

Lemma Qlt_bool_true (a b : Q) : Qlt_bool a b = true <-> (a < b)%Q.
Proof.
  unfold Qlt_bool. rewrite negb_true_iff. split.
  - intros Hle. apply Qnot_le_lt. intros Hba.
    apply Qle_bool_iff in Hba. congruence.
  - intros Hlt. destruct (Qle_bool b a) eqn:E; [| reflexivity].
    apply Qle_bool_iff in E. exfalso. exact (Qlt_not_le _ _ Hlt E).
Qed.

Lemma py_min_le_left (a b : Q) : (py_min a b <= a)%Q.
Proof.
  unfold py_min. destruct (Qle_bool a b) eqn:E; cbn.
  - apply Qle_refl.
  - apply Qlt_le_weak. apply Qnot_le_lt. intros H.
    apply Qle_bool_iff in H. congruence.
Qed.

(** X15: whenever [Assertion.rank] returns, the [max_rank] it gives is 1 and
    the rank does not exceed it. *)
Theorem rank_at_most_max_rank {P : Type} (self : Assertion P) (r m : Q) :
  rank self = Ok (r, m) -> m = 1%Q /\ (r <= m)%Q.
Proof.
  unfold rank, ONE_POINT_OH, ZERO_POINT_OH.
  destruct (state self);
    try (intros [= <- <-]; split; [reflexivity | apply Qle_refl]);
    (destruct (resolved self) as [x |]; [| discriminate]);
    (destruct (is_lt_clause _ self); [intros [= <- <-]; split; [reflexivity | discriminate] |]);
    (destruct (Qeq_bool (expected self) 0); cbn [negb];
     intros [= <- <-]; (split; [reflexivity |]);
     [discriminate | apply py_min_le_left]).
Qed.


Lemma status_when_false_not_passing (op : Operator) (computed expected_ : Q) :
  is_passing (status_when_false op computed expected_) = false
  /\ status_when_false op computed expected_ <> Done.
Proof.
  unfold status_when_false.
  destruct op; try destruct (_ && _); split; try reflexivity; discriminate.
Qed.

Section EvaluatorFacts.

Context {P Ctx : Type}.
Variable predicate_apply : P -> Clausable -> bool.
Variable apply_operator : Q -> Operator -> Q -> outcome bool.
Variable course_reducer : Assertion P -> list CourseInstance -> outcome AppliedClauseResult.
Variable area_reducer : Assertion P -> list AreaPointer -> outcome AppliedClauseResult.
Variable data_reducer : Assertion P -> list Clausable -> outcome AppliedClauseResult.
Variable get_insert_exceptions : Ctx -> list string -> list string.
Variable forced_course_by_clbid : Ctx -> string -> list string -> outcome CourseInstance.

(** X17: whenever [evaluate_with_courses] returns, it hands back the
    reducer's result for the courses given, and its status is a passing one
    exactly when the comparison of the reduced value with [expected] holds. *)
Theorem evaluate_with_courses_passing_iff
    (assertion : Assertion P) (value_ : list CourseInstance)
    (st : ResultStatus) (r : AppliedClauseResult) :
  evaluate_with_courses apply_operator course_reducer assertion value_ = Ok (st, r) ->
  course_reducer assertion value_ = Ok r
  /\ (is_passing st = true
      <-> apply_operator (value r) (operator assertion) (expected assertion) = Ok true).
Proof.
  unfold evaluate_with_courses.
  destruct (course_reducer assertion value_) as [r0 | e]; [| discriminate].
  cbn [mbind outcome_bind bind].
  destruct (apply_operator (value r0) _ _) as [[|] | e] eqn:Hop; [| | discriminate].
  - assert (Hpass : forall s, is_passing s = true ->
                      Ok (s, r0) = Ok (st, r) ->
                      Ok r0 = Ok r
                      /\ (is_passing st = true
                          <-> apply_operator (value r) (operator assertion)
                                (expected assertion) = Ok true)).
    { intros s Hs [= <- <-]. rewrite Hop, Hs. done. }
    destruct (existsb is_in_progress (courses r0)).
    + destruct (course_reducer assertion (List.filter _ value_)) as [r1 | e];
        [| discriminate].
      cbn [mbind outcome_bind bind].
      destruct (apply_operator (value r1) _ _) as [b | e]; [| discriminate].
      cbn [mbind outcome_bind bind].
      destruct (treat_in_progress_as_pass assertion || b); [by apply Hpass |].
      destruct (negb _); [discriminate |].
      destruct (_ && _); [by apply Hpass |].
      destruct (existsb is_in_progress_in_future _); [by apply Hpass | discriminate].
    + cbn [mbind outcome_bind bind].
      destruct (_ || _); by apply Hpass.
  - intros [= <- <-]. split; [done |]. rewrite Hop.
    rewrite (proj1 (status_when_false_not_passing _ _ _)). split; discriminate.
Qed.

(** X18: for areas and for music items the status is [Done] exactly when
    the comparison holds, and otherwise one of [NeedsMoreItems],
    [FailedInvariant] and [Empty]: no pending status is ever given. *)
Theorem evaluate_without_courses_never_pending
    (assertion : Assertion P) (st : ResultStatus) (r : AppliedClauseResult) :
  (forall value_,
      evaluate_with_areas apply_operator area_reducer assertion value_ = Ok (st, r) ->
      (st = Done
       <-> apply_operator (value r) (operator assertion) (expected assertion) = Ok true)
      /\ (st = Done \/ st = NeedsMoreItems \/ st = FailedInvariant \/ st = Empty))
  /\ (forall value_,
        evaluate_with_items apply_operator data_reducer assertion value_ = Ok (st, r) ->
        (st = Done
         <-> apply_operator (value r) (operator assertion) (expected assertion) = Ok true)
        /\ (st = Done \/ st = NeedsMoreItems \/ st = FailedInvariant \/ st = Empty)).
Proof.
  split; intros value_;
    [unfold evaluate_with_areas; destruct (area_reducer assertion value_) as [r0 | e]
    | unfold evaluate_with_items; destruct (data_reducer assertion value_) as [r0 | e]];
    try discriminate; cbn [mbind outcome_bind bind];
    (destruct (apply_operator (value r0) _ _) as [[|] | e] eqn:Hop; [| | discriminate]);
    intros [= <- <-]; rewrite ?Hop.
  1, 3: split; [split; done | auto].
  all: split;
    [ split; [intros H; by apply status_when_false_not_passing in H | discriminate]
    | unfold status_when_false; destruct (operator assertion);
      try destruct (_ && _); auto ].
Qed.



(** X20: whenever the audit of a conditional assertion returns, the
    condition had been evaluated and is kept; on a true condition the result
    carries the audited [when_true], leaves [when_false] alone, and reports
    the status and rank of the audited [when_true]; on a false condition
    with a [when_false] it does the same with that branch. *)
Theorem conditional_audit_delegates
    (self c' : ConditionalAssertion P) (data_ : list Clausable) (ctx : Ctx) :
  conditional_audit_and_resolve predicate_apply apply_operator course_reducer
    area_reducer data_reducer get_insert_exceptions forced_course_by_clbid
    self data_ ctx
  = Ok c' ->
  condition c' = condition self
  /\ (result (condition self) = Some true ->
      audit_and_resolve predicate_apply apply_operator course_reducer area_reducer
        data_reducer get_insert_exceptions forced_course_by_clbid
        (when_true self) data_ ctx
      = Ok (when_true c')
      /\ when_false c' = when_false self
      /\ conditional_status c' = status (when_true c')
      /\ conditional_rank c' = rank (when_true c'))
  /\ (result (condition self) = Some false ->
      when_true c' = when_true self
      /\ forall wf, when_false self = Some wf ->
           exists wf',
             audit_and_resolve predicate_apply apply_operator course_reducer
               area_reducer data_reducer get_insert_exceptions
               forced_course_by_clbid wf data_ ctx
             = Ok wf'
             /\ when_false c' = Some wf'
             /\ conditional_status c' = status wf'
             /\ conditional_rank c' = rank wf')
  /\ result (condition self) <> None.
Proof.
  unfold conditional_audit_and_resolve, conditional_status, conditional_rank.
  destruct (result (condition self)) as [[|] |] eqn:Hc; [| | discriminate].
  - destruct (audit_and_resolve _ _ _ _ _ _ _ (when_true self) _ _) as [a | e];
      [| discriminate].
    intros [= <-]. cbn. rewrite Hc.
    repeat split; try done.
  - destruct (when_false self) as [wf |] eqn:Hwf.
    + destruct (audit_and_resolve _ _ _ _ _ _ _ wf _ _) as [a | e] eqn:Ha;
        [| discriminate].
      intros [= <-]. cbn. rewrite Hc.
      repeat split; try done.
      intros wf0 [= <-]. exists a. rewrite Ha. repeat split; done.
    + intros [= <-]. rewrite Hc, Hwf. repeat split; try done.
Qed.

End EvaluatorFacts.

Lemma py_range_In (a b n : Z) : In n (py_range a b) <-> (a <= n < b)%Z.
Proof.
  unfold py_range. rewrite in_map_iff. split.
  - intros [i [<- Hi]]. apply in_seq in Hi. lia.
  - intros H. exists (Z.to_nat (n - a)). split; [lia |]. apply in_seq. lia.
Qed.

Lemma py_range_sorted (a b : Z) : StronglySorted Z.lt (py_range a b).
Proof.
  unfold py_range. generalize (Z.to_nat (b - a)) as len. intros len.
  generalize 0%nat as start. induction len as [| len IH]; intros start; cbn.
  - constructor.
  - constructor; [apply IH |].
    apply Forall_forall. intros x Hx. apply list_elem_of_In in Hx.
    apply in_map_iff in Hx as [i [<- Hi]]. apply in_seq in Hi. lia.
Qed.

Lemma int_of_decimal_integer (d : Q) (e : Z) :
  (d == inject_Z e)%Q -> int_of_decimal d = e.
Proof.
  unfold Qeq, int_of_decimal. cbn. intros H.
  rewrite Z.mul_1_r in H. rewrite H. apply Z.quot_mul. discriminate.
Qed.

Lemma integer_check (d : Q) (e : Z) :
  (d == inject_Z e)%Q -> Qeq_bool d (inject_Z (int_of_decimal d)) = true.
Proof.
  intros H. rewrite (int_of_decimal_integer d e H). by apply Qeq_bool_iff.
Qed.

Lemma Qlt_bool_inject (m e : Z) (d : Q) :
  (d == inject_Z e)%Q -> Qlt_bool (inject_Z m) d = (m <? e)%Z.
Proof.
  intros H. destruct (m <? e)%Z eqn:E.
  - apply Qlt_bool_true. rewrite H. rewrite <- Zlt_Qlt. lia.
  - destruct (Qlt_bool (inject_Z m) d) eqn:E'; [| reflexivity].
    apply Qlt_bool_true in E'. rewrite H in E'. rewrite <- Zlt_Qlt in E'. lia.
Qed.

(** X21: for an EQ assertion, and for a GTE assertion marked [at_most],
    with an integer expected value [e], [input_size_range] proposes the one
    size [min(maximum, e)]. *)
Theorem input_size_range_exact_is_single {P : Type}
    (assertion : Assertion P) (maximum e : Z) :
  (expected assertion == inject_Z e)%Q ->
  operator assertion = EqualTo
  \/ (operator assertion = GreaterThanOrEqualTo /\ at_most assertion = true) ->
  input_size_range assertion maximum = Ok [Z.min maximum e].
Proof.
  intros He Hop. unfold input_size_range.
  rewrite (integer_check _ _ He), (int_of_decimal_integer _ _ He). cbn [negb].
  rewrite (Qlt_bool_inject _ _ _ He).
  assert (Hone : py_range e (e + 1) = [e]).
  { unfold py_range. replace (e + 1 - e)%Z with 1%Z by lia.
    change (Z.to_nat 1) with 1%nat. cbn [seq map Z.of_nat]. f_equal. lia. }
  destruct Hop as [-> | [-> ->]];
    destruct (Z.ltb_spec maximum e); rewrite ?Hone; f_equal; f_equal; lia.
Qed.

(** X22: the sizes [input_size_range] yields for an integer expected
    value [e], by operator.  EQ, and GTE marked [at_most]: [min(maximum, e)]
    alone.  NEQ: the sizes from 0 below [e] and those above [e] up to
    [maximum], never [e].  GTE not marked [at_most]: [maximum] alone when it
    is below [e], else the sizes from [e] to [maximum].  GT: [maximum] alone
    when it is below [e], else the sizes above [e] up to
    [max(e + 1, maximum)], so that [e + 1] is yielded even when [maximum] is
    [e].  LT: the sizes from 0 below [e].  LTE: the sizes from 0 up to [e]. *)
Theorem input_size_range_members {P : Type}
    (assertion : Assertion P) (maximum e : Z) (sizes : list Z) :
  (expected assertion == inject_Z e)%Q ->
  input_size_range assertion maximum = Ok sizes ->
  forall n,
    In n sizes
    <-> match operator assertion with
        | EqualTo => n = Z.min maximum e
        | NotEqualTo => (0 <= n < e)%Z \/ (e < n <= maximum)%Z
        | GreaterThanOrEqualTo =>
            if at_most assertion then n = Z.min maximum e
            else if (maximum <? e)%Z then n = maximum
                 else (e <= n <= maximum)%Z
        | GreaterThan =>
            if (maximum <? e)%Z then n = maximum
            else (e < n <= Z.max (e + 1) maximum)%Z
        | LessThan => (0 <= n < e)%Z
        | LessThanOrEqualTo => (0 <= n <= e)%Z
        | In_ | NotIn => False
        end.
Proof.
  intros He. unfold input_size_range.
  rewrite (integer_check _ _ He), (int_of_decimal_integer _ _ He). cbn [negb].
  rewrite (Qlt_bool_inject _ _ _ He).
  destruct (operator assertion), (at_most assertion);
    try discriminate;
    try (destruct (Z.ltb_spec maximum e));
    intros [= <-] n; rewrite ?in_app_iff, ?py_range_In; cbn [In]; lia.
Qed.

(** X23: the sizes [input_size_range] yields are strictly ascending, hence
    without repetition. *)
Theorem input_size_range_ascending {P : Type}
    (assertion : Assertion P) (maximum : Z) (sizes : list Z) :
  input_size_range assertion maximum = Ok sizes ->
  StronglySorted Z.lt sizes.
Proof.
  unfold input_size_range.
  destruct (negb _); [discriminate |].
  assert (Hone : forall x : Z, StronglySorted Z.lt [x])
    by (intros x; repeat constructor).
  destruct (operator assertion), (at_most assertion);
    try discriminate;
    try (destruct (Qlt_bool _ _)); try (destruct (_ <? _)%Z);
    intros [= <-]; auto using py_range_sorted.
  all: set (ex := int_of_decimal (expected assertion)).
  all: assert (Happ : forall l1 l2 : list Z,
                  StronglySorted Z.lt l1 -> StronglySorted Z.lt l2 ->
                  (forall x y, In x l1 -> In y l2 -> (x < y)%Z) ->
                  StronglySorted Z.lt (l1 ++ l2)).
  1, 3: (intros l1 l2 H1 H2 H12; induction H1 as [| x l1 H1 IH Hx]; [exact H2 |];
         cbn; constructor;
         [ apply IH; intros; apply H12; [by right | done]
         | apply Forall_app; split; [exact Hx |];
           apply Forall_forall; intros y Hy; apply H12; [by left |];
           by apply list_elem_of_In ]).
  all: apply Happ; auto using py_range_sorted;
    intros x y Hx%py_range_In Hy%py_range_In; lia.
Qed.

(** X24: for a finite expected value (every [Q] is one; [Decimal]'s [NaN]
    and infinities, on which [int] itself raises, are outside the
    embedding), [input_size_range] raises exactly when the expected value is
    not an integer or the operator is IN or NOT_IN, and it raises
    [TypeError]. *)
Theorem input_size_range_raises_iff {P : Type}
    (assertion : Assertion P) (maximum : Z) :
  ((exists err, input_size_range assertion maximum = Raise err)
   <-> (~ (exists e : Z, (expected assertion == inject_Z e)%Q)
        \/ operator assertion = In_ \/ operator assertion = NotIn))
  /\ (forall err, input_size_range assertion maximum = Raise err -> err = TypeError).
Proof.
  unfold input_size_range.
  destruct (Qeq_bool _ _) eqn:Hint; cbn [negb].
  - apply Qeq_bool_iff in Hint.
    split.
    + split.
      * intros [err Herr]. right.
        destruct (operator assertion), (at_most assertion); auto;
          try discriminate;
          try (destruct (Qlt_bool _ _); discriminate);
          try (destruct (_ <? _)%Z; discriminate).
      * intros [Hno | [-> | ->]]; [| eauto | eauto].
        exfalso. apply Hno. eauto.
    + intros err.
      destruct (operator assertion), (at_most assertion);
        try discriminate;
        try (destruct (Qlt_bool _ _); discriminate);
        try (destruct (_ <? _)%Z; discriminate);
        by intros [= <-].
  - split; [| by intros err [= <-]].
    split; [| eauto].
    intros _. left. intros [e He].
    rewrite (integer_check _ _ He) in Hint. discriminate.
Qed.

(** X25: [compute_change_diff] skips the changes whose condition has no
    true result: the difference is that of the changes that fire, taken in
    the same order, and it is 0 when none fires. *)
Theorem compute_change_diff_skips_unfired (changes_ : list ValueChange) :
  compute_change_diff changes_
  = compute_change_diff
      (List.filter (fun change => truthy (result (expression change))) changes_)
  /\ (List.filter (fun change => truthy (result (expression change))) changes_ = [] ->
      compute_change_diff changes_ = 0%Q).
Proof.
  assert (Hskip : compute_change_diff changes_
                  = compute_change_diff
                      (List.filter (fun change => truthy (result (expression change)))
                                   changes_)).
  { unfold compute_change_diff. generalize 0%Q as acc.
    induction changes_ as [| c cs IH]; intros acc; [reflexivity |].
    cbn [List.filter fold_left].
    destruct (result (expression c)) as [[|] |] eqn:Hc; cbn [truthy fold_left];
      rewrite ?Hc; apply IH. }
  split; [exact Hskip |].
  intros Hnone. rewrite Hskip, Hnone. reflexivity.
Qed.

(** Case analysis on the computation a bind is waiting for. *)
Ltac run_bind :=
  match goal with
  | |- context [mbind _ ?m] => destruct m eqn:?
  | |- context [match ?m with Ok _ => _ | Raise _ => _ end] => destruct m eqn:?
  end.

(** X26: what [evaluate] stores as the result of a predicate expression:
    true for a conjunction, whether there are operands for a disjunction,
    false for a negation, whatever the operands evaluate to; only an atom
    gets the value of its function. *)
Theorem expression_evaluate_ignores_operands
    (e e' : SomePredicateExpression) (ctx : PredicateContext) :
  expression_evaluate e ctx = Ok e' ->
  match e with
  | PredicateExpressionCompoundAnd es _ =>
      e' = PredicateExpressionCompoundAnd es (Some true)
  | PredicateExpressionCompoundOr es _ =>
      e' = PredicateExpressionCompoundOr es (Some (negb (is_empty es)))
  | PredicateExpressionNot x _ =>
      e' = PredicateExpressionNot x (Some false)
  | PredicateExpression f a _ =>
      exists b, evaluate_predicate_function f a ctx = Ok b /\ e' = PredicateExpression f a (Some b)
  end.
Proof.
  destruct e as [es r | es r | x r | f a r]; cbn.
  - run_bind; cbn; [| discriminate].
    by intros [= <-].
  - destruct es as [| x xs]; cbn; [by intros [= <-] |].
    run_bind; cbn; [| discriminate].
    by intros [= <-].
  - run_bind; cbn; [| discriminate].
    by intros [= <-].
  - destruct (evaluate_predicate_function f a ctx) as [b | err]; cbn; [| discriminate].
    intros [= <-]. eauto.
Qed.

Lemma function_name_is_no_compound_key (name : string) (v : PyVal) :
  function_of_name name <> None ->
  has_key "$and" [(name, v)] = false
  /\ has_key "$or" [(name, v)] = false
  /\ has_key "$not" [(name, v)] = false.
Proof.
  intros Hname. unfold has_key. cbn [existsb fst]. rewrite !orb_false_r.
  repeat split;
    match goal with
    | |- String.eqb ?k name = false =>
        destruct (String.eqb k name) eqn:E; [| reflexivity];
        apply String.eqb_eq in E; subst name; exfalso; apply Hname; reflexivity
    end.
Qed.

(** X27: a [ValueChange] whose condition is a conjunction fires whenever it
    loads: the condition is loaded and then evaluated, which leaves its
    result true whatever the operands are, and [compute_change_diff] counts
    its amount. *)
Theorem change_condition_and_always_fires
    (operands : list PyVal) (ctx : PredicateContext) (e : SomePredicateExpression) (q : Q) :
  load_change_condition (PDict [("$and", PList operands)]) ctx = Ok e ->
  result e = Some true
  /\ compute_change_diff [{| mode := Add; expression := e; amount := q |}]
     = (0 + q)%Q.
Proof.
  unfold load_change_condition. cbn.
  match goal with
  | |- context [mbind _ (mbind _ ?m)] => destruct m as [clauses | err]
  end; cbn; [| discriminate].
  run_bind; cbn; [| discriminate].
  intros [= <-]. cbn. split; reflexivity.
Qed.

(** X28: an atom of a static function is loaded with the value of its
    function, evaluating it again changes nothing, and wrapping it in [$not]
    loads with that same value, not its negation; an atom of the one
    function that is not static is loaded with no result, and evaluating it
    (hence using it as the condition of a [ValueChange]) raises [TypeError]. *)
Theorem static_atom_load_then_evaluate
    (name arg : string) (f : PredicateExpressionFunction) (ctx : PredicateContext) :
  function_of_name name = Some f ->
  (is_static f = true ->
   exists b,
     evaluate_predicate_function f arg ctx = Ok b
     /\ load_predicate_expression (PDict [(name, PStr arg)]) ctx
        = Ok (PredicateExpression f arg (Some b))
     /\ expression_evaluate (PredicateExpression f arg (Some b)) ctx
        = Ok (PredicateExpression f arg (Some b))
     /\ load_predicate_expression (PDict [("$not", PDict [(name, PStr arg)])]) ctx
        = Ok (PredicateExpressionNot (PredicateExpression f arg (Some b)) (Some b)))
  /\ (is_static f = false ->
      load_predicate_expression (PDict [(name, PStr arg)]) ctx
      = Ok (PredicateExpression f arg None)
      /\ expression_evaluate (PredicateExpression f arg None) ctx = Raise TypeError
      /\ load_change_condition (PDict [(name, PStr arg)]) ctx = Raise TypeError).
Proof.
  intros Hname.
  assert (Hkeys := function_name_is_no_compound_key name (PStr arg)).
  rewrite Hname in Hkeys. specialize (Hkeys ltac:(discriminate)).
  destruct Hkeys as (Ha & Ho & Hn).
  assert (Hnot : forall x,
             load_predicate_expression (PDict [(name, PStr arg)]) ctx = Ok x ->
             load_predicate_expression (PDict [("$not", PDict [(name, PStr arg)])]) ctx
             = Ok (PredicateExpressionNot x (result x))).
  { intros x Hx.
    change (load_predicate_expression (PDict [("$not", PDict [(name, PStr arg)])]) ctx)
      with (expression ← load_predicate_expression (PDict [(name, PStr arg)]) ctx;
            Ok (PredicateExpressionNot expression (result expression))).
    by rewrite Hx. }
  unfold load_change_condition.
  assert (Hload : load_predicate_expression (PDict [(name, PStr arg)]) ctx
                  = if is_static f
                    then r ← evaluate_predicate_function f arg ctx;
                         Ok (PredicateExpression f arg (Some r))
                    else Ok (PredicateExpression f arg None)).
  { cbn [load_predicate_expression].
    rewrite Ha, Ho, Hn. unfold can_load_atom. by rewrite Hname. }
  split; intros Hs; rewrite Hs in Hload.
  - destruct f; try discriminate; cbn in Hload;
      eexists; (split; [reflexivity |]); (split; [exact Hload |]);
      (split; [reflexivity | exact (Hnot _ Hload)]).
  - destruct f; try discriminate. rewrite Hload. cbn. auto.
Qed.

(** X29: what [load_predicate_expression] rejects.  A string or a list
    raises [AttributeError]; [None], a boolean, an integer or a float raises
    [TypeError].  A dict without any of the keys [$and], [$or], [$not]
    raises [TypeError] when it has not exactly one key, or when its one key
    is not the name of a predicate function, and [AssertionError] when its
    one key is such a name and the argument is not a string.  A dict with
    the key [$and] raises [AssertionError] when [$and] is not its only key,
    and when the operands are not a list. *)
Theorem load_rejects_malformed (ctx : PredicateContext) :
  (forall s, load_predicate_expression (PStr s) ctx = Raise AttributeError)
  /\ (forall l, load_predicate_expression (PList l) ctx = Raise AttributeError)
  /\ (forall data,
        match data with
        | PNone | PBool _ | PInt _ | PFloat _ => True
        | _ => False
        end ->
        load_predicate_expression data ctx = Raise TypeError)
  /\ (forall items,
        has_key "$and" items = false ->
        has_key "$or" items = false ->
        has_key "$not" items = false ->
        length items <> 1%nat
        \/ (exists name v, items = [(name, v)] /\ function_of_name name = None) ->
        load_predicate_expression (PDict items) ctx = Raise TypeError)
  /\ (forall name v,
        function_of_name name <> None ->
        (forall s, v <> PStr s) ->
        load_predicate_expression (PDict [(name, v)]) ctx = Raise AssertionError)
  /\ (forall items,
        has_key "$and" items = true ->
        length items <> 1%nat ->
        load_predicate_expression (PDict items) ctx = Raise AssertionError)
  /\ (forall operands,
        (forall es, operands <> PList es) ->
        load_predicate_expression (PDict [("$and", operands)]) ctx
        = Raise AssertionError).
Proof.
  split; [reflexivity |]. split; [reflexivity |].
  split; [by intros [] |].
  split; [| split; [| split]].
  - intros items Ha Ho Hn Hshape. cbn [load_predicate_expression].
    rewrite Ha, Ho, Hn. unfold can_load_atom.
    destruct Hshape as [Hlen | (name & v & -> & Hname)].
    + destruct items as [| [k v] [| kv rest]]; [reflexivity | done | reflexivity].
    + by rewrite Hname.
  - intros name v Hname Hv. cbn [load_predicate_expression].
    destruct (function_name_is_no_compound_key name v Hname) as (-> & -> & ->).
    unfold can_load_atom.
    destruct (function_of_name name) as [f |] eqn:E; [| done].
    destruct v; try reflexivity. by destruct (Hv s).
  - intros items Ha Hlen. cbn [load_predicate_expression]. rewrite Ha.
    destruct items as [| [k v] [| kv rest]]; [discriminate | done | reflexivity].
  - intros operands Hop. cbn.
    destruct operands; try reflexivity. by destruct (Hop items).
Qed.

Lemma rank_at_most_max_rank_witness :
  rank short_by_two = Ok ((2 # 4)%Q, 1%Q) /\ 1%Q = 1%Q /\ (2 # 4 <= 1)%Q.
Proof.
  assert (H : rank short_by_two = Ok ((2 # 4)%Q, 1%Q)) by reflexivity.
  split; [exact H |].
  exact (rank_at_most_max_rank short_by_two _ _ H).
Defined.


Lemma evaluate_with_courses_passing_iff_witness :
  evaluate_with_courses apply_operator_model course_reducer_model
    (from_args "count(courses)" 4 GreaterThanOrEqualTo false)
    [a_course "c1" false false false false; a_course "c2" false false false false]
  = Ok (NeedsMoreItems,
        {| value := 2;
           data := DataStrs ["c1"; "c2"];
           courses := [a_course "c1" false false false false;
                       a_course "c2" false false false false] |})
  /\ (is_passing NeedsMoreItems = true
      <-> apply_operator_model 2 GreaterThanOrEqualTo 4 = Ok true).
Proof.
  assert (H : evaluate_with_courses apply_operator_model course_reducer_model
                (from_args "count(courses)" 4 GreaterThanOrEqualTo false)
                [a_course "c1" false false false false;
                 a_course "c2" false false false false]
              = Ok (NeedsMoreItems,
                    {| value := 2;
                       data := DataStrs ["c1"; "c2"];
                       courses := [a_course "c1" false false false false;
                                   a_course "c2" false false false false] |}))
    by reflexivity.
  split; [exact H |].
  exact (proj2 (evaluate_with_courses_passing_iff apply_operator_model
                  course_reducer_model _ _ _ _ H)).
Defined.

Lemma evaluate_without_courses_never_pending_witness :
  evaluate_with_areas apply_operator_model area_reducer_model
    (from_args "count(areas)" 1 GreaterThanOrEqualTo false) []
  = Ok (Empty, {| value := 0; data := DataStrs []; courses := [] |})
  /\ (Empty = Done \/ Empty = NeedsMoreItems \/ Empty = FailedInvariant
      \/ Empty = Empty).
Proof.
  assert (H : evaluate_with_areas apply_operator_model area_reducer_model
                (from_args "count(areas)" 1 GreaterThanOrEqualTo false) []
              = Ok (Empty, {| value := 0; data := DataStrs []; courses := [] |}))
    by reflexivity.
  split; [exact H |].
  exact (proj2 (proj1 (evaluate_without_courses_never_pending apply_operator_model
                         area_reducer_model data_reducer_model _ _ _) [] H)).
Defined.


Lemma conditional_audit_delegates_witness :
  conditional_audit_with_models scenario_F three_completed = Ok scenario_F_audited
  /\ condition scenario_F_audited = condition scenario_F.
Proof.
  assert (H : conditional_audit_with_models scenario_F three_completed
              = Ok scenario_F_audited)
    by (vm_compute; reflexivity).
  split; [exact H |].
  exact (proj1 (conditional_audit_delegates predicate_apply_model
                  apply_operator_model course_reducer_model area_reducer_model
                  data_reducer_model get_insert_exceptions_model
                  forced_course_by_clbid_model _ _ _ _ H)).
Defined.

Lemma input_size_range_exact_is_single_witness :
  (expected (from_args "count(courses)" 4 EqualTo false) == inject_Z 4)%Q
  /\ input_size_range (from_args "count(courses)" 4 EqualTo false) 10
     = Ok [Z.min 10 4].
Proof.
  assert (H : (expected (from_args "count(courses)" 4 EqualTo false)
               == inject_Z 4)%Q) by reflexivity.
  split; [exact H |].
  exact (input_size_range_exact_is_single
           (from_args "count(courses)" 4 EqualTo false) 10 4 H (or_introl eq_refl)).
Defined.

Lemma input_size_range_members_witness :
  input_size_range (from_args "count(courses)" 2 GreaterThanOrEqualTo false) 4
  = Ok [2; 3; 4]%Z
  /\ (In 3%Z [2; 3; 4]%Z <-> (2 <= 3 <= 4)%Z).
Proof.
  assert (H : input_size_range
                (from_args "count(courses)" 2 GreaterThanOrEqualTo false) 4
              = Ok [2; 3; 4]%Z) by reflexivity.
  split; [exact H |].
  exact (input_size_range_members
           (from_args "count(courses)" 2 GreaterThanOrEqualTo false) 4 2 _
           (Qeq_refl 2) H 3%Z).
Defined.

Lemma input_size_range_ascending_witness :
  input_size_range (from_args "count(courses)" 2 GreaterThanOrEqualTo false) 4
  = Ok [2; 3; 4]%Z
  /\ StronglySorted Z.lt [2; 3; 4]%Z.
Proof.
  assert (H : input_size_range
                (from_args "count(courses)" 2 GreaterThanOrEqualTo false) 4
              = Ok [2; 3; 4]%Z) by reflexivity.
  split; [exact H |].
  exact (input_size_range_ascending _ _ _ H).
Defined.

Lemma expression_evaluate_ignores_operands_witness :
  expression_evaluate
    (PredicateExpressionCompoundAnd
       [PredicateExpression HasCourse "MATH 101" (Some false)] (Some false))
    declared_130
  = Ok (PredicateExpressionCompoundAnd
          [PredicateExpression HasCourse "MATH 101" (Some false)] (Some true))
  /\ PredicateExpressionCompoundAnd
       [PredicateExpression HasCourse "MATH 101" (Some false)] (Some true)
     = PredicateExpressionCompoundAnd
         [PredicateExpression HasCourse "MATH 101" (Some false)] (Some true).
Proof.
  assert (H : expression_evaluate
                (PredicateExpressionCompoundAnd
                   [PredicateExpression HasCourse "MATH 101" (Some false)]
                   (Some false))
                declared_130
              = Ok (PredicateExpressionCompoundAnd
                      [PredicateExpression HasCourse "MATH 101" (Some false)]
                      (Some true)))
    by reflexivity.
  split; [exact H |].
  exact (expression_evaluate_ignores_operands _ _ _ H).
Defined.

Lemma change_condition_and_always_fires_witness :
  load_change_condition
    (PDict [("$and", PList [PDict [("has-course", PStr "MATH 101")]])]) declared_130
  = Ok (PredicateExpressionCompoundAnd
          [PredicateExpression HasCourse "MATH 101" (Some false)] (Some true))
  /\ result (PredicateExpressionCompoundAnd
               [PredicateExpression HasCourse "MATH 101" (Some false)] (Some true))
     = Some true.
Proof.
  assert (H : load_change_condition
                (PDict [("$and", PList [PDict [("has-course", PStr "MATH 101")]])])
                declared_130
              = Ok (PredicateExpressionCompoundAnd
                      [PredicateExpression HasCourse "MATH 101" (Some false)]
                      (Some true)))
    by reflexivity.
  split; [exact H |].
  exact (proj1 (change_condition_and_always_fires _ _ _ 1%Q H)).
Defined.

Lemma static_atom_load_then_evaluate_witness :
  function_of_name "has-declared-area-code" = Some HasDeclaredAreaCode
  /\ exists b,
      load_predicate_expression
        (PDict [("$not", PDict [("has-declared-area-code", PStr "130")])])
        declared_130
      = Ok (PredicateExpressionNot
              (PredicateExpression HasDeclaredAreaCode "130" (Some b)) (Some b)).
Proof.
  assert (H : function_of_name "has-declared-area-code" = Some HasDeclaredAreaCode)
    by reflexivity.
  split; [exact H |].
  destruct (proj1 (static_atom_load_then_evaluate "has-declared-area-code" "130"
                     HasDeclaredAreaCode declared_130 H) eq_refl)
    as [b (_ & _ & _ & Hnot)].
  exists b. exact Hnot.
Defined.

End AssertionMore.

(** * Further properties of requirements *)

Module RequirementMore.

Import Dp Dp.Requirement.



End RequirementMore.
